(** * gspread_wrapper/gspread_utils.py: the retrying call wrapper and the
      GSPREAD convenience class, as a shallow embedding.

    Python values are modelled by Rocq data: [str] by [string] (the bytes
    of the text in UTF-8, so that a character of ASCII is one byte below
    128), [int] by [Z], the loop counter by [nat].  [str.lower] and [repr]
    are written out for ASCII text; where the class applies them to names
    that may hold any text they are operations of the language the class
    is run by, fixed on ASCII text.  A zero-argument callable handed to [gspread_function] is a
    computation over the state of the outside world (the spreadsheet
    service); it returns a value or raises, and everything observable that
    happens on the way (an operation being invoked, a [print], a [sleep]) is
    appended to a trace. *)

From Stdlib Require Import String Ascii List ZArith Arith Lia Bool DecimalString.
From Equations Require Import Equations.
Import ListNotations.
Local Open Scope string_scope.
Local Open Scope list_scope.
Local Open Scope nat_scope.

(** ** Python strings *)

Module PyStr.

(** The newline and the two quote characters. *)
Definition nl : string := String "010"%char EmptyString.
Definition squote : ascii := "039"%char.
Definition dquote : ascii := "034"%char.
Definition backslash : ascii := "092"%char.

(** [needle in hay]. *)
Fixpoint contains (needle hay : string) : bool :=
  match hay with
  | EmptyString => prefix needle EmptyString
  | String _ rest => prefix needle hay || contains needle rest
  end.

(** [c in s] for a single character. *)
Fixpoint has_char (c : ascii) (s : string) : bool :=
  match s with
  | EmptyString => false
  | String d rest => Ascii.eqb c d || has_char c rest
  end.

(** Text made of ASCII characters only. *)
Fixpoint ascii_only (s : string) : Prop :=
  match s with
  | EmptyString => True
  | String c rest => nat_of_ascii c < 128 /\ ascii_only rest
  end.

(** [str.lower()] on ASCII text: 'A'..'Z' are moved to 'a'..'z', every
    other character is kept. *)
Definition lower_ascii (c : ascii) : ascii :=
  let n := nat_of_ascii c in
  if (65 <=? n) && (n <=? 90) then ascii_of_nat (n + 32) else c.

Fixpoint lower (s : string) : string :=
  match s with
  | EmptyString => EmptyString
  | String c rest => String (lower_ascii c) (lower rest)
  end.

(** [str(n)] for a natural number, as f-strings print it. *)
Definition of_nat (n : nat) : string := NilZero.string_of_uint (Nat.to_uint n).

(** [sep.join(parts)]. *)
Fixpoint join (sep : string) (parts : list string) : string :=
  match parts with
  | [] => EmptyString
  | [p] => p
  | p :: rest => p ++ sep ++ join sep rest
  end.

Definition hex_digit (n : nat) : ascii :=
  if n <? 10 then ascii_of_nat (48 + n) else ascii_of_nat (87 + n).

(** [repr(s)] of a [str] of ASCII text: single quotes unless the text holds
    a single quote and no double quote; backslash, the chosen quote and
    control characters are escaped.  Bytes above 127 are kept. *)
Definition repr_char (q c : ascii) : string :=
  let n := nat_of_ascii c in
  if Ascii.eqb c backslash then String backslash (String backslash EmptyString)
  else if Ascii.eqb c q then String backslash (String q EmptyString)
  else if n =? 10 then String backslash "n"
  else if n =? 13 then String backslash "r"
  else if n =? 9 then String backslash "t"
  else if (n <? 32) || (n =? 127) then
    String backslash (String "x" (String (hex_digit (n / 16))
                                    (String (hex_digit (n mod 16)) EmptyString)))
  else String c EmptyString.

Fixpoint repr_body (q : ascii) (s : string) : string :=
  match s with
  | EmptyString => EmptyString
  | String c rest => repr_char q c ++ repr_body q rest
  end.

Definition repr (s : string) : string :=
  let q := if has_char squote s && negb (has_char dquote s) then dquote else squote in
  String q (repr_body q s ++ String q EmptyString).

(** [repr] of a list of [str], as [f"{list(...)}"] prints it, [repr_str]
    being [repr] on [str]. *)
Definition repr_list_with (repr_str : string -> string) (l : list string) : string :=
  "[" ++ join ", " (map repr_str l) ++ "]".

Definition repr_list (l : list string) : string := repr_list_with repr l.

End PyStr.

(** ** Exceptions and results *)

(** A [gspread.client.APIError].  [message] is [str(e)]; [frames] is the
    text of the stack entries that [traceback.format_exc()] prints for it,
    header line included.  The text is taken as it stands at the handler
    that catches the exception: the entries Python adds while an exception
    unwinds through an enclosing activation of the wrapper are not added to
    it (the test for "502" reads [str(e)] and is not affected by them). *)
Record api_error : Type := ApiError { message : string; frames : string }.

(** [traceback.format_exc()] inside the [except APIError] handler: the stack
    entries followed by the line "type: message". *)
Definition format_exc (e : api_error) : string :=
  frames e ++ "gspread.exceptions.APIError: " ++ message e ++ PyStr.nl.

(** The exceptions the module tells apart.  [JSONDecodeError] is
    [requests.exceptions.JSONDecodeError]; [ValueError] is a [ValueError]
    that is not a JSON decode error; [OtherError] is any other exception
    class, with its name and message. *)
Inductive exn : Type :=
| JSONDecodeError
| APIError (e : api_error)
| ValueError (msg : string)
| OtherError (cls : string) (msg : string).

Inductive result (T : Type) : Type :=
| Ok (v : T)
| Raise (e : exn).
Arguments Ok {T} v.
Arguments Raise {T} e.

(** ** Observable events *)

(** [Invoke] marks one invocation of a named operation of a collaborator
    (the remote client, a worksheet, a dataframe); [Print] and [Sleep] are
    the calls of [print] and [time.sleep]; [Enter] and [Leave] delimit one
    activation of [gspread_function]. *)
Inductive event : Type :=
| Enter
| Leave
| Invoke (name : string)
| Print (line : string)
| Sleep (seconds : nat).

Definition trace : Type := list event.

Definition is_sleep (ev : event) : bool :=
  match ev with Sleep _ => true | _ => false end.

Definition is_invoke (name : string) (ev : event) : bool :=
  match ev with Invoke n => String.eqb n name | _ => false end.

Definition is_print (ev : event) : bool :=
  match ev with Print _ => true | _ => false end.

(** Number of backoff sleeps, and of invocations of [name], in a trace. *)
Definition sleeps (t : trace) : nat := length (filter is_sleep t).
Definition invocations (name : string) (t : trace) : nat :=
  length (filter (is_invoke name) t).
Definition prints (t : trace) : nat := length (filter is_print t).

(** Every invocation in a trace with the number of [gspread_function]
    activations that enclose it, [d] being the number at the start. *)
Fixpoint invoke_depths (d : nat) (t : trace) : list (string * nat) :=
  match t with
  | [] => []
  | Enter :: rest => invoke_depths (S d) rest
  | Leave :: rest => invoke_depths (pred d) rest
  | Invoke n :: rest => (n, d) :: invoke_depths d rest
  | _ :: rest => invoke_depths d rest
  end.

(** ** The retry policy *)

Inductive classification : Type :=
| TRANSIENT_PARSE
| TRANSIENT_SERVER_502
| TRANSIENT_RATE_LIMIT
| TRANSIENT_UNAVAILABLE
| FATAL.

Definition counter_threshold : nat := 9.

(** The [if]/[elif] chain of the [except gspread.client.APIError] handler. *)
Definition classify_api (e : api_error) : classification :=
  let tb := format_exc e in
  if PyStr.contains "502" (message e) || PyStr.contains "Server Error" tb then
    TRANSIENT_SERVER_502
  else if PyStr.contains "Quota exceeded" tb
          || PyStr.contains "Read requests per minute per user" tb then
    TRANSIENT_RATE_LIMIT
  else if PyStr.contains "the service is currently unavailable" (PyStr.lower tb) then
    TRANSIENT_UNAVAILABLE
  else FATAL.

(** Which handler, if any, catches an exception and what it decides. *)
Definition classify (e : exn) : option classification :=
  match e with
  | JSONDecodeError => Some TRANSIENT_PARSE
  | APIError a => Some (classify_api a)
  | _ => None
  end.

Definition retrying (counter : nat) : string :=
  " Retrying (" ++ PyStr.of_nat (counter + 1) ++ "/"
    ++ PyStr.of_nat counter_threshold ++ ")...".

(** What a handler prints before it sleeps. *)
Definition retry_line (c : classification) (counter : nat) : string :=
  match c with
  | TRANSIENT_PARSE => "JSONDecodeError. Sleeping for 30 seconds."
  | TRANSIENT_SERVER_502 => "502 Server Error." ++ retrying counter
  | TRANSIENT_RATE_LIMIT => "Rate limit hit." ++ retrying counter
  | TRANSIENT_UNAVAILABLE => "Service unavailable." ++ retrying counter
  | FATAL => EmptyString
  end.

Definition final_line : string := "Final attempt after hitting retry threshold.".

(** How one pass through the body of the [while] loop ends: the function is
    left (by [return] or by an exception), or control falls through to
    [counter += 1]. *)
Inductive flow (T : Type) : Type :=
| Exit (r : result T)
| Next.
Arguments Exit {T} r.
Arguments Next {T}.

Section Retry.

(** The state of the outside world. *)
Variable R : Type.

(** A Python computation: from a state of the world to a result, the new
    state and the events it produced, oldest first. *)
Definition M (T : Type) : Type := R -> result T * R * trace.

Definition ret {T} (v : T) : M T := fun r => (Ok v, r, []).

Definition raise {T} (e : exn) : M T := fun r => (Raise e, r, []).

Definition bind {T U} (m : M T) (k : T -> M U) : M U :=
  fun r =>
    let '(x, r1, t1) := m r in
    match x with
    | Ok v => let '(y, r2, t2) := k v r1 in (y, r2, t1 ++ t2)
    | Raise e => (Raise e, r1, t1)
    end.

(** An operation of a collaborator: it acts on the world only. *)
Definition remote (T : Type) : Type := R -> result T * R.

(** One invocation of the operation [name]. *)
Definition call {T} (name : string) (op : remote T) : M T :=
  fun r => let '(x, r1) := op r in (x, r1, [Invoke name]).

(** One pass through the [try] statement, lines 32 to 48. *)
Definition attempt {T} (f : M T) (counter : nat) (r : R) : flow T * R * trace :=
  let '(x, r1, t1) := f r in
  match x with
  | Ok v => (Exit (Ok v), r1, t1)
  | Raise JSONDecodeError =>
      (Next, r1, t1 ++ [Print (retry_line TRANSIENT_PARSE counter); Sleep 30])
  | Raise (APIError e) =>
      match classify_api e with
      | FATAL => (Exit (Raise (APIError e)), r1, t1 ++ [Print (format_exc e)])
      | c => (Next, r1, t1 ++ [Print (retry_line c counter); Sleep 30])
      end
  | Raise e => (Exit (Raise e), r1, t1)
  end.

(** The [while counter < counter_threshold] loop followed by the final
    attempt of lines 51 and 52. *)
Equations? retry_loop {T} (f : M T) (counter : nat) (r : R) : result T * R * trace
  by wf (counter_threshold - counter) lt :=
retry_loop f counter r with lt_dec counter counter_threshold := {
  | left Hlt with attempt f counter r := {
      | (Exit x, r1, t1) => (x, r1, t1)
      | (Next, r1, t1) =>
          let '(x, r2, t2) := retry_loop f (counter + 1) r1 in (x, r2, t1 ++ t2) }
  | right _ =>
      let '(x, r1, t1) := f r in (x, r1, Print final_line :: t1) }.
Proof.
  change (counter_threshold - (counter + 1) < counter_threshold - counter). lia.
Qed.

(** [gspread_function(f)]. *)
Definition gspread_function {T} (f : M T) : M T :=
  fun r => let '(x, r1, t) := retry_loop f 0 r in (x, r1, Enter :: t ++ [Leave]).

(** The loop states the run of [gspread_function f] from [r0] passes
    through: the value of [counter] and the world at each evaluation of
    the loop test. *)
Inductive loop_state {T} (f : M T) (r0 : R) : nat -> R -> Prop :=
| loop_start : loop_state f r0 0 r0
| loop_next counter r r1 t1 :
    loop_state f r0 counter r ->
    counter < counter_threshold ->
    attempt f counter r = (Next, r1, t1) ->
    loop_state f r0 (counter + 1) r1.

(** The world before the [n]-th invocation (counted from 0) of an
    operation that is invoked again and again, and what that invocation
    returns. *)
Fixpoint state_after {T} (op : remote T) (n : nat) (r : R) : R :=
  match n with
  | 0 => r
  | S k => snd (op (state_after op k r))
  end.

Definition outcome_at {T} (op : remote T) (n : nat) (r : R) : result T :=
  fst (op (state_after op n r)).

End Retry.

Arguments ret {R T} v.
Arguments raise {R T} e.
Arguments bind {R T U} m k.
Arguments call {R T} name op.
Arguments attempt {R T} f counter r.
Arguments retry_loop {R T} f counter r.
Arguments gspread_function {R T} f.
Arguments loop_state {R T} f r0 _ _.
Arguments state_after {R T} op n r.
Arguments outcome_at {R T} op n r.

Notation "x <- m ;; k" := (bind m (fun x => k))
  (at level 61, m at next level, right associativity).
Notation "m ;;; k" := (bind m (fun _ => k))
  (at level 61, right associativity).

(** A step that touches nothing outside: it returns or raises as [x]. *)
Definition lift {R T} (x : result T) : M R T := fun r => (x, r, []).

(** A failure that makes the loop sleep and go round again. *)
Definition transient {T} (x : result T) : Prop :=
  match x with
  | Ok _ => False
  | Raise e =>
      match classify e with
      | Some FATAL | None => False
      | Some _ => True
      end
  end.

(** What the loop prints when the [counter]-th pass ends in [x]. *)
Definition retry_print {T} (x : result T) (counter : nat) : string :=
  match x with
  | Raise e => match classify e with
               | Some c => retry_line c counter
               | None => EmptyString
               end
  | Ok _ => EmptyString
  end.

(** The events of [n] failed passes of the loop over the operation [name],
    the first of them made with the counter at [counter]: an invocation, the
    handler's line, the backoff sleep. *)
Fixpoint backoff {R T} (name : string) (op : remote R T) (counter : nat) (r : R)
    (n : nat) : trace :=
  match n with
  | 0 => []
  | S k =>
      backoff name op counter r k
        ++ [Invoke name; Print (retry_print (outcome_at op k r) (counter + k)); Sleep 30]
  end.

(** ** Dictionaries *)

(** A Python [dict] with [str] keys: the items in insertion order.  Setting
    a key that is present replaces its value in place. *)
Module PyDict.

Definition dict (V : Type) : Type := list (string * V).

Fixpoint set {V} (d : dict V) (k : string) (v : V) : dict V :=
  match d with
  | [] => [(k, v)]
  | (k', v') :: rest =>
      if String.eqb k' k then (k', v) :: rest else (k', v') :: set rest k v
  end.

Fixpoint get {V} (d : dict V) (k : string) : option V :=
  match d with
  | [] => None
  | (k', v') :: rest => if String.eqb k' k then Some v' else get rest k
  end.

(** [k in d]. *)
Definition mem {V} (k : string) (d : dict V) : bool :=
  match get d k with Some _ => true | None => false end.

Definition keys {V} (d : dict V) : list string := map fst d.

Definition items {V} (d : dict V) : list (string * V) := d.

(** [{key(a): val(a) for a in l}]. *)
Definition comprehension {A V} (key : A -> string) (val : A -> V) (l : list A)
  : dict V :=
  fold_left (fun d a => set d (key a) (val a)) l [].

End PyDict.

(** ** Worksheets, tables and sheet references *)

(** A [gspread.worksheet.Worksheet]: the attributes [title], [id], [url]. *)
Record Worksheet : Type := { ws_title : string; ws_id : Z; ws_url : string }.

(** The literal values the module passes to [Worksheet.format]. *)
#[local] Set Warnings "-register-all".
Inductive pyval : Type :=
| VFloat (literal : string)
| VInt (n : Z)
| VBool (b : bool)
| VStr (s : string)
| VDict (entries : list (string * pyval)).

Definition data_row_format : pyval :=
  VDict [("backgroundColor",
          VDict [("red", VFloat "1.0"); ("green", VFloat "1.0"); ("blue", VFloat "1.0")]);
         ("horizontalAlignment", VStr "CENTER");
         ("textFormat",
          VDict [("foregroundColor",
                  VDict [("red", VFloat "0.0"); ("green", VFloat "0.0");
                         ("blue", VFloat "0.0")]);
                 ("fontSize", VInt 10);
                 ("bold", VBool false)])].

(** What a caller may pass where a sheet is expected: a [Worksheet], a
    [str], an [int] (a [bool] is an [int] in Python), or a value of any
    other type, of which only the type's name is kept. *)
Inductive sheet_ref : Type :=
| SheetObject (ws : Worksheet)
| SheetName (name : string)
| SheetId (n : Z)
| SheetOther (type_name : string).

(** A [pandas.DataFrame]: the column labels and the rows of [df.values]. *)
Record DataFrame (cell : Type) : Type :=
  { columns : list cell; values : list (list cell) }.
Arguments columns {cell} _.
Arguments values {cell} _.

(** [df.shape[1]]. *)
Definition shape1 {cell} (df : DataFrame cell) : Z := Z.of_nat (length (columns df)).

(** The frames [sheet_to_df] builds with pandas, with their row labels. *)
Module Pandas.

(** The column labels, the row labels and the rows of a frame. *)
Record Frame (label cell : Type) : Type :=
  { labels : list label; index : list Z; rows : list (list cell) }.
Arguments labels {label cell} _.
Arguments index {label cell} _.
Arguments rows {label cell} _.

(** The labels 0, 1, ... of [n] rows or columns that were given none. *)
Definition range (n : nat) : list Z := map Z.of_nat (seq 0 n).

(** The length of the longest row. *)
Definition width {cell} (data : list (list cell)) : nat :=
  list_max (map (@length cell) data).

(** A row filled up to [w] cells: a cell the data does not provide is
    [None]. *)
Definition pad {cell} (w : nat) (row : list cell) : list (option cell) :=
  map Some row ++ repeat None (w - length row).

(** [pd.DataFrame(data)] on a list of rows: as many columns as the longest
    row has cells, both axes labelled 0, 1, ..., shorter rows filled up. *)
Definition of_rows {cell} (data : list (list cell)) : Frame Z (option cell) :=
  {| labels := range (width data);
     index := range (length data);
     rows := map (pad (width data)) data |}.

(** [df.iloc[0]]: the values of the first row. *)
Definition iloc0 {label cell} (df : Frame label cell) : result (list cell) :=
  match rows df with
  | [] => Raise (OtherError "IndexError" "single positional indexer is out-of-bounds")
  | row :: _ => Ok row
  end.

(** [df.columns = new]: refused unless there is one label per column. *)
Definition set_columns {label label' cell} (df : Frame label cell) (new : list label')
  : result (Frame label' cell) :=
  if length new =? length (labels df) then
    Ok {| labels := new; index := index df; rows := rows df |}
  else
    Raise (ValueError ("Length mismatch: Expected axis has "
                         ++ PyStr.of_nat (length (labels df))
                         ++ " elements, new values have "
                         ++ PyStr.of_nat (length new) ++ " elements")).

(** [df[1:]]: all rows but the first, under their labels. *)
Definition drop_first {label cell} (df : Frame label cell) : Frame label cell :=
  {| labels := labels df; index := tl (index df); rows := tl (rows df) |}.

(** [df.reset_index(drop=True)]: the rows labelled 0, 1, ... anew. *)
Definition reset_index {label cell} (df : Frame label cell) : Frame label cell :=
  {| labels := labels df; index := range (length (rows df)); rows := rows df |}.

End Pandas.

(** The body of the [while n > 0] loop of [_number_to_column]. *)
Equations? number_to_column_loop (n : Z) (result : string) : string
  by wf (Z.to_nat n) lt :=
number_to_column_loop n result with Z_gt_dec n 0 := {
  | left Hpos =>
      number_to_column_loop ((n - 1) / 26)
        (String (ascii_of_nat (Z.to_nat (65 + (n - 1) mod 26))) result)
  | right _ => result }.
Proof.
  assert (0 <= (n - 1) / 26 < n)%Z.
  { split; [apply Z.div_pos; lia | apply Z.div_lt_upper_bound; lia]. }
  lia.
Qed.

Definition _number_to_column (n : Z) (start_at_0 : bool) : string :=
  number_to_column_loop (if start_at_0 then n + 1 else n)%Z EmptyString.

Definition invalid_reference : string :=
  "Invalid sheet reference. Use name (str), ID (int), or Worksheet object.".

(** The dictionary of line 77, from the worksheets the service lists: the
    titles to the ids (line 87), then the keys lowered, [lower] being
    [str.lower]. *)
Definition lowered_names (lower : string -> string) (worksheets : list Worksheet)
  : PyDict.dict Z :=
  PyDict.comprehension (fun kv => lower (fst kv)) snd
    (PyDict.items (PyDict.comprehension ws_title ws_id worksheets)).

(** The comparison of line 78: a worksheet whose lowered title is the
    lowered name. *)
Definition matches_under (lower : string -> string) (sheet_name : string)
    (ws : Worksheet) : Prop :=
  lower (ws_title ws) = lower sheet_name.

(** A worksheet whose title is the requested name up to the case of the
    ASCII letters. *)
Definition matches (sheet_name : string) (ws : Worksheet) : Prop :=
  PyStr.lower (ws_title ws) = PyStr.lower sheet_name.

(** The name under which the conversion [df.values.tolist()] is invoked,
    and the events of one activation of [gspread_function] in which it is
    invoked once and succeeds. *)
Definition conversion : string := "df.values.tolist".

Definition conversion_block : trace := [Enter; Invoke conversion; Leave].

(** The events a retry loop over the operation [name] can produce. *)
Definition loop_event (name : string) (ev : event) : Prop :=
  match ev with
  | Invoke n => n = name
  | Print _ | Sleep _ => True
  | Enter | Leave => False
  end.

(** A trace made of activations of [gspread_function], one after the other,
    each over one operation other than [excluded]. *)
Inductive wrapped_calls (excluded : string) : trace -> Prop :=
| wrapped_nil : wrapped_calls excluded []
| wrapped_cons name t rest :
    name <> excluded ->
    Forall (loop_event name) t ->
    wrapped_calls excluded rest ->
    wrapped_calls excluded (Enter :: t ++ Leave :: rest).

(** A trace of such activations with at most one [conversion_block] among
    them. *)
Definition converts_at_most_once (t : trace) : Prop :=
  exists pre post,
    wrapped_calls conversion pre /\ wrapped_calls conversion post
    /\ (t = pre \/ t = pre ++ conversion_block ++ post).

(** Computations whose trace is made of wrapped calls, from any world. *)
Definition tidy {R T} (m : M R T) : Prop :=
  forall r, wrapped_calls conversion (snd (m r)).

(** [m] goes on as [b] does; where [b] returns, [m] next hands the
    conversion to [gspread_function], once, and ends with wrapped calls of
    other operations; where [b] raises, [m] ends as [b]. *)
Definition converts_after {R T U} (m : M R U) (b : M R T) : Prop :=
  forall r,
    match b r with
    | (Ok _, r0, t0) =>
        exists post,
          snd (m r) = t0 ++ conversion_block ++ post /\ wrapped_calls conversion post
    | (Raise e, r0, t0) => m r = (Raise e, r0, t0)
    end.

(** A run that only raised the [ValueError] of [_sheet_check]: the world
    is as before and nothing was observed. *)
Definition rejected {R T} (run : result T * R * trace) (r : R) : Prop :=
  run = (Raise (ValueError invalid_reference), r, []).

(** [f] applied under [Ok]. *)
Definition result_map {A B} (f : A -> B) (x : result A) : result B :=
  match x with
  | Ok v => Ok (f v)
  | Raise e => Raise e
  end.

Section Wrapper.

(** The world, and the values of the gspread library the class handles
    without looking inside: clients, workbooks, responses, cell values. *)
Variables R client workbook response cell : Type.

(** [gspread.service_account()]. *)
Variable service_account : remote R client.

(** What the class calls and does not define: [str.lower] and [repr] on
    [str], which follow the character tables of the language on text
    that is not ASCII, and the operations of the gspread objects. *)
Record Gspread : Type := {
  str_lower : string -> string;
  str_repr : string -> string;
  gc_open : client -> string -> remote R workbook;
  sh_worksheets : workbook -> remote R (list Worksheet);
  sh_get_worksheet_by_id : workbook -> Z -> remote R Worksheet;
  worksheet_update : Worksheet -> string -> list (list cell) -> remote R response;
  worksheet_clear : Worksheet -> remote R response;
  worksheet_format : Worksheet -> string -> pyval -> remote R response;
  worksheet_freeze : Worksheet -> option Z -> option Z -> remote R response;
  worksheet_clear_basic_filter : Worksheet -> remote R response;
  worksheet_append_row : Worksheet -> list cell -> remote R response;
  worksheet_col_values : Worksheet -> Z -> remote R (list cell);
  worksheet_batch_clear : Worksheet -> list string -> remote R response;
  worksheet_delete_rows : Worksheet -> Z -> Z -> remote R response;
  worksheet_get_all_values : Worksheet -> remote R (list (list cell)) }.

Variable api : Gspread.

(** Lines 7 to 10, run when the module is imported: the global client. *)
Definition module_gc : M R client :=
  fun r =>
    let '(x, r1, t) := call "gspread.service_account" service_account r in
    (x, r1, Print "V1.0.0" :: t).

(** The module-level global [gc]. *)
Variable gc : client.

(** An instance of the class: [self.gc] and [self.sh]. *)
Record GSPREAD : Type := { self_gc : client; sh : workbook }.

(** [open_workbook]: [self] has only its [gc] attribute when [__init__]
    calls it, and the body reads the global [gc]. *)
Definition open_workbook (self_gc : client) (workbook_name : string) : M R workbook :=
  gspread_function (call "gc.open" (gc_open api gc workbook_name)).

Definition __init__ (workbook_name : string) : M R GSPREAD :=
  c <- call "gspread.service_account" service_account ;;
  s <- gspread_function (open_workbook c workbook_name) ;;
  ret {| self_gc := c; sh := s |}.

Definition get_worksheet_dict (self : GSPREAD) : M R (PyDict.dict Z) :=
  worksheets <- gspread_function (call "sh.worksheets" (sh_worksheets api (sh self))) ;;
  ret (PyDict.comprehension ws_title ws_id worksheets).

Definition get_sheet_by_id (self : GSPREAD) (sheet_id : Z) : M R Worksheet :=
  gspread_function
    (call "sh.get_worksheet_by_id" (sh_get_worksheet_by_id api (sh self) sheet_id)).

Definition name_not_found (worksheet_names : PyDict.dict Z) : string :=
  "Worksheet name must be one of "
    ++ PyStr.repr_list_with (str_repr api) (PyDict.keys worksheet_names).

Definition get_sheet_by_name (self : GSPREAD) (sheet_name : string) : M R Worksheet :=
  d <- get_worksheet_dict self ;;
  let worksheet_names :=
    PyDict.comprehension (fun kv => str_lower api (fst kv)) snd (PyDict.items d) in
  if negb (PyDict.mem (str_lower api sheet_name) worksheet_names) then
    raise (ValueError (name_not_found worksheet_names))
  else
    match PyDict.get worksheet_names (str_lower api sheet_name) with
    | Some sheet_id => get_sheet_by_id self sheet_id
    | None => raise (OtherError "KeyError" (str_repr api (str_lower api sheet_name)))
    end.

Definition _sheet_check (self : GSPREAD) (sheet : sheet_ref) : M R Worksheet :=
  match sheet with
  | SheetObject ws => ret ws
  | SheetName name => get_sheet_by_name self name
  | SheetId n => get_sheet_by_id self n
  | SheetOther _ => raise (ValueError invalid_reference)
  end.

Definition replace_worksheet_with_df (self : GSPREAD) (worksheet_name : string)
    (df : DataFrame cell) (extra_rows : Z) : M R Worksheet :=
  worksheet <- get_sheet_by_name self worksheet_name ;;
  gspread_function
    (call "worksheet.clear_basic_filter" (worksheet_clear_basic_filter api worksheet)) ;;;
  gspread_function
    (call "worksheet.freeze" (worksheet_freeze api worksheet (Some 0%Z) (Some 0%Z))) ;;;
  let headers := [columns df] in
  data_rows <- gspread_function
                 (call "df.values.tolist" (fun r => (Ok (values df), r))) ;;
  let all_rows := headers ++ data_rows in
  gspread_function (call "worksheet.clear" (worksheet_clear api worksheet)) ;;;
  let col_letter := _number_to_column (shape1 df) false in
  let range_label := ("A1:" ++ col_letter ++ PyStr.of_nat (length all_rows))%string in
  gspread_function
    (call "worksheet.update" (worksheet_update api worksheet range_label all_rows)) ;;;
  (if 1 <? length all_rows then
     gspread_function
       (call "worksheet.format"
          (worksheet_format api worksheet
             ("A2:" ++ col_letter ++ PyStr.of_nat (length all_rows))%string
             data_row_format)) ;;;
     ret tt
   else ret tt) ;;;
  gspread_function
    (call "worksheet.freeze" (worksheet_freeze api worksheet (Some 1%Z) None)) ;;;
  ret worksheet.

Definition update_rows_by_range (self : GSPREAD) (sheet : sheet_ref)
    (cell_range : string) (vals : list (list cell)) : M R Worksheet :=
  worksheet <- _sheet_check self sheet ;;
  gspread_function
    (call "worksheet.update" (worksheet_update api worksheet cell_range vals)) ;;;
  ret worksheet.

(** Lines 118 to 120: what [replace_worksheet_with_df] does before it
    converts the dataframe. *)
Definition before_conversion (self : GSPREAD) (worksheet_name : string) : M R Worksheet :=
  worksheet <- get_sheet_by_name self worksheet_name ;;
  gspread_function
    (call "worksheet.clear_basic_filter" (worksheet_clear_basic_filter api worksheet)) ;;;
  gspread_function
    (call "worksheet.freeze" (worksheet_freeze api worksheet (Some 0%Z) (Some 0%Z))) ;;;
  ret worksheet.

Definition sheet_to_df (self : GSPREAD) (sheet : sheet_ref)
  : M R (Pandas.Frame (option cell) (option cell)) :=
  sheet <- _sheet_check self sheet ;;
  data <- gspread_function
            (call "sheet.get_all_values" (worksheet_get_all_values api sheet)) ;;
  let df := Pandas.of_rows data in
  header <- lift (Pandas.iloc0 df) ;;
  df <- lift (Pandas.set_columns df header) ;;
  ret (Pandas.reset_index (Pandas.drop_first df)).

Definition append_row_to_sheet (self : GSPREAD) (sheet : sheet_ref) (row : list cell)
  : M R Worksheet :=
  sheet <- _sheet_check self sheet ;;
  gspread_function (call "sheet.append_row" (worksheet_append_row api sheet row)) ;;;
  ret sheet.

Definition get_sheet_url (self : GSPREAD) (sheet : sheet_ref) : M R string :=
  sheet <- _sheet_check self sheet ;;
  ret (ws_url sheet).

Definition get_column_values (self : GSPREAD) (sheet : sheet_ref) (index : Z)
  : M R (list cell) :=
  sheet <- _sheet_check self sheet ;;
  gspread_function (call "sheet.col_values" (worksheet_col_values api sheet index)).

Definition batch_clear (self : GSPREAD) (sheet : sheet_ref) (range : string)
  : M R response :=
  sheet <- _sheet_check self sheet ;;
  gspread_function (call "sheet.batch_clear" (worksheet_batch_clear api sheet [range])).

Definition clear_basic_filter (self : GSPREAD) (sheet : sheet_ref) : M R response :=
  sheet <- _sheet_check self sheet ;;
  gspread_function
    (call "sheet.clear_basic_filter" (worksheet_clear_basic_filter api sheet)).

Definition delete_rows (self : GSPREAD) (sheet : sheet_ref)
    (starting_index ending_index : Z) : M R response :=
  sheet <- _sheet_check self sheet ;;
  gspread_function
    (call "sheet.delete_rows"
       (worksheet_delete_rows api sheet starting_index ending_index)).

End Wrapper.

Arguments str_lower {R client workbook response cell} _.
Arguments str_repr {R client workbook response cell} _.
Arguments gc_open {R client workbook response cell} _.
Arguments sh_worksheets {R client workbook response cell} _.
Arguments sh_get_worksheet_by_id {R client workbook response cell} _.
Arguments worksheet_update {R client workbook response cell} _.
Arguments worksheet_clear {R client workbook response cell} _.
Arguments worksheet_format {R client workbook response cell} _.
Arguments worksheet_freeze {R client workbook response cell} _.
Arguments worksheet_clear_basic_filter {R client workbook response cell} _.
Arguments worksheet_append_row {R client workbook response cell} _.
Arguments worksheet_col_values {R client workbook response cell} _.
Arguments worksheet_batch_clear {R client workbook response cell} _.
Arguments worksheet_delete_rows {R client workbook response cell} _.
Arguments worksheet_get_all_values {R client workbook response cell} _.
Arguments self_gc {client workbook} _.
Arguments sh {client workbook} _.
Arguments module_gc {R client} service_account _.
Arguments open_workbook {R client workbook response cell} api gc self_gc workbook_name _.
Arguments __init__ {R client workbook response cell} service_account api gc workbook_name _.
Arguments get_worksheet_dict {R client workbook response cell} api self _.
Arguments get_sheet_by_id {R client workbook response cell} api self sheet_id _.
Arguments name_not_found {R client workbook response cell} api worksheet_names.
Arguments get_sheet_by_name {R client workbook response cell} api self sheet_name _.
Arguments _sheet_check {R client workbook response cell} api self sheet _.
Arguments replace_worksheet_with_df {R client workbook response cell}
  api self worksheet_name df extra_rows _.
Arguments before_conversion {R client workbook response cell} api self worksheet_name _.
Arguments update_rows_by_range {R client workbook response cell}
  api self sheet cell_range vals _.
Arguments sheet_to_df {R client workbook response cell} api self sheet _.
Arguments append_row_to_sheet {R client workbook response cell} api self sheet row _.
Arguments get_sheet_url {R client workbook response cell} api self sheet _.
Arguments get_column_values {R client workbook response cell} api self sheet index _.
Arguments batch_clear {R client workbook response cell} api self sheet range _.
Arguments clear_basic_filter {R client workbook response cell} api self sheet _.
Arguments delete_rows {R client workbook response cell}
  api self sheet starting_index ending_index _.

(** ** Test doubles *)

(** Stand-ins for the remote service, over a world that only counts the
    invocations made so far. *)
Module Double.

(** An operation that ends the same way at every invocation. *)
Definition always {T} (x : result T) : remote nat T := fun n => (x, S n).

(** An operation whose [n]-th invocation ends as the [n]-th entry of a
    script, and as [last] once the script is used up. *)
Definition scripted {T} (script : list (result T)) (last : result T) : remote nat T :=
  fun n => (nth n script last, S n).

(** A malformed response twice, then 42. *)
Definition twice_malformed_then_42 : remote nat Z :=
  scripted [Raise JSONDecodeError; Raise JSONDecodeError] (Ok 42%Z).

(** The header line of a traceback and one stack entry. *)
Definition traceback_header : string :=
  "Traceback (most recent call last):" ++ PyStr.nl.

Definition stack_entry (file : string) (line : nat) (func code : string) : string :=
  "  File " ++ String PyStr.dquote file ++ String PyStr.dquote ", line "
    ++ PyStr.of_nat line ++ ", in " ++ func ++ PyStr.nl
    ++ "    " ++ code ++ PyStr.nl.

Definition in_request : string :=
  traceback_header
    ++ stack_entry "/usr/lib/python3/site-packages/gspread/client.py" 93 "request"
         "raise APIError(response)".

(** API errors as the service returns them. *)
Definition bad_gateway : api_error :=
  {| message := "502 Server Error"; frames := in_request |}.

Definition invalid_range : api_error :=
  {| message := "Invalid range"; frames := in_request |}.

(** An "Invalid range" error raised below line 502 of a caller's file. *)
Definition invalid_range_at_line_502 : api_error :=
  {| message := "Invalid range";
     frames := traceback_header
                 ++ stack_entry "/srv/jobs/sync.py" 502 "push" "sheet.update(rng, rows)"
                 ++ stack_entry "/usr/lib/python3/site-packages/gspread/client.py" 93
                      "request" "raise APIError(response)" |}.

(** A service with the given way of opening workbooks and the given
    worksheets; clients and workbooks are named by strings, responses
    carry nothing, cells are strings. *)
Definition service (opening : string -> string -> remote nat string)
    (sheets : list Worksheet) : Gspread nat string string unit string :=
  {| str_lower := PyStr.lower;
     str_repr := PyStr.repr;
     gc_open := opening;
     sh_worksheets := fun _ => always (Ok sheets);
     sh_get_worksheet_by_id := fun _ sheet_id =>
       always match find (fun ws => Z.eqb (ws_id ws) sheet_id) sheets with
              | Some ws => Ok ws
              | None => Raise (OtherError "WorksheetNotFound" EmptyString)
              end;
     worksheet_update := fun _ _ _ => always (Ok tt);
     worksheet_clear := fun _ => always (Ok tt);
     worksheet_format := fun _ _ _ => always (Ok tt);
     worksheet_freeze := fun _ _ _ => always (Ok tt);
     worksheet_clear_basic_filter := fun _ => always (Ok tt);
     worksheet_append_row := fun _ _ => always (Ok tt);
     worksheet_col_values := fun _ _ => always (Ok []);
     worksheet_batch_clear := fun _ _ => always (Ok tt);
     worksheet_delete_rows := fun _ _ _ => always (Ok tt);
     worksheet_get_all_values := fun _ => always (Ok []) |}.

(** Opening succeeds: the workbook handle tells which client opened it. *)
Definition opens (c name : string) : remote nat string :=
  always (Ok (c ++ "/" ++ name)%string).

(** Opening fails with a bad gateway every time. *)
Definition gateway_down (c name : string) : remote nat string :=
  always (Raise (APIError bad_gateway)).

Definition sheet (ws_title : string) (ws_id : Z) : Worksheet :=
  {| ws_title := ws_title; ws_id := ws_id;
     ws_url := ("https://docs.google.com/spreadsheets/d/wb#gid=0")%string |}.

(** The worksheets of the lookup scenarios. *)
Definition two_sheets : list Worksheet := [sheet "sheet1" 11; sheet "Sheet2" 22].

Definition table : DataFrame string :=
  {| columns := ["name"; "qty"]; values := [["bolt"; "4"]; ["nut"; "9"]] |}.

(** The service of the lookup scenarios, the sheets holding [data]. *)
Definition holding (data : list (list string)) : Gspread nat string string unit string :=
  let s := service opens two_sheets in
  {| str_lower := str_lower s;
     str_repr := str_repr s;
     gc_open := gc_open s;
     sh_worksheets := sh_worksheets s;
     sh_get_worksheet_by_id := sh_get_worksheet_by_id s;
     worksheet_update := worksheet_update s;
     worksheet_clear := worksheet_clear s;
     worksheet_format := worksheet_format s;
     worksheet_freeze := worksheet_freeze s;
     worksheet_clear_basic_filter := worksheet_clear_basic_filter s;
     worksheet_append_row := worksheet_append_row s;
     worksheet_col_values := worksheet_col_values s;
     worksheet_batch_clear := worksheet_batch_clear s;
     worksheet_delete_rows := worksheet_delete_rows s;
     worksheet_get_all_values := fun _ => always (Ok data) |}.

(** [str.lower] on text of ASCII and of the accented capital letters of
    Latin-1 (U+00C0 to U+00DE, the sign U+00D7 apart): in UTF-8 these are
    the byte 195 followed by a byte from 128 to 158 other than 151, and the
    small letter has the second byte 32 higher. *)
Fixpoint lower_latin1_from (accented : bool) (s : string) : string :=
  match s with
  | EmptyString => EmptyString
  | String c rest =>
      let n := nat_of_ascii c in
      if accented && (128 <=? n) && (n <=? 158) && negb (n =? 151) then
        String (ascii_of_nat (n + 32)) (lower_latin1_from false rest)
      else
        String (PyStr.lower_ascii c) (lower_latin1_from (n =? 195) rest)
  end.

Definition lower_latin1 : string -> string := lower_latin1_from false.

(** "ECOLE" and "ecole" with an acute accent on the first letter. *)
Definition ecole_capitals : string :=
  String "195"%char (String "137"%char "COLE").

Definition ecole_small : string :=
  String "195"%char (String "169"%char "cole").

(** A service run by a language whose [str.lower] is [lower], with the
    given worksheets. *)
Definition speaking (lower : string -> string) (sheets : list Worksheet)
  : Gspread nat string string unit string :=
  let s := service opens sheets in
  {| str_lower := lower;
     str_repr := str_repr s;
     gc_open := gc_open s;
     sh_worksheets := sh_worksheets s;
     sh_get_worksheet_by_id := sh_get_worksheet_by_id s;
     worksheet_update := worksheet_update s;
     worksheet_clear := worksheet_clear s;
     worksheet_format := worksheet_format s;
     worksheet_freeze := worksheet_freeze s;
     worksheet_clear_basic_filter := worksheet_clear_basic_filter s;
     worksheet_append_row := worksheet_append_row s;
     worksheet_col_values := worksheet_col_values s;
     worksheet_batch_clear := worksheet_batch_clear s;
     worksheet_delete_rows := worksheet_delete_rows s;
     worksheet_get_all_values := worksheet_get_all_values s |}.

(** A table whose last row lacks a cell. *)
Definition ragged : list (list string) := [["name"; "qty"]; ["bolt"; "4"]; ["nut"]].

End Double.

(** ** Reading column letters and recording requests *)

(** The number a column label stands for: the letters read as digits 1 to
    26 in base 26, 'A' being 1.  The inverse the labels of
    [_number_to_column] are checked against. *)
Fixpoint column_value (label : string) (acc : Z) : Z :=
  match label with
  | EmptyString => acc
  | String c rest => column_value rest (26 * acc + (Z.of_nat (nat_of_ascii c) - 64))
  end.

Definition column_to_number (label : string) : Z := column_value label 0.

(** Equality up to case, said without lowering: two characters are the
    same up to case when they are equal or one is a capital letter 'A'..'Z'
    and the other its small letter; two texts, when they have the same
    length and their characters are the same up to case, place by place. *)
Definition same_letter (a b : ascii) : bool :=
  let m := nat_of_ascii a in
  let n := nat_of_ascii b in
  (m =? n)
  || ((65 <=? m) && (m <=? 90) && (n =? m + 32))
  || ((65 <=? n) && (n <=? 90) && (m =? n + 32)).

Fixpoint equal_up_to_case (s t : string) : bool :=
  match s, t with
  | EmptyString, EmptyString => true
  | String a s', String b t' => same_letter a b && equal_up_to_case s' t'
  | _, _ => false
  end.

(** A name [repr] prints as it stands: printable characters of ASCII, no
    single quote and no backslash among them. *)
Definition plain_char (c : ascii) : Prop :=
  32 <= nat_of_ascii c < 127 /\ nat_of_ascii c <> 39 /\ nat_of_ascii c <> 92.

Fixpoint plain (s : string) : Prop :=
  match s with
  | EmptyString => True
  | String c rest => plain_char c /\ plain rest
  end.

(** A name between single quotes. *)
Definition quoted (s : string) : string := "'" ++ s ++ "'".

(** The 256 characters. *)
Definition all_chars : list ascii := map ascii_of_nat (seq 0 256).

(** A capital letter 'A'..'Z'. *)
Definition is_capital (c : ascii) : Prop := 65 <= nat_of_ascii c <= 90.

Fixpoint all_capitals (s : string) : Prop :=
  match s with
  | EmptyString => True
  | String c rest => is_capital c /\ all_capitals rest
  end.

(** Computations whose trace, from any world, is made of activations of
    [gspread_function] over operations other than [excluded]. *)
Definition avoids {R T} (excluded : string) (m : M R T) : Prop :=
  forall r, wrapped_calls excluded (snd (m r)).

(** The range labels and the row count [replace_worksheet_with_df] computes
    from a dataframe. *)
Definition row_count {cell} (df : DataFrame cell) : nat := S (length (values df)).

Definition update_range {cell} (df : DataFrame cell) : string :=
  "A1:" ++ _number_to_column (shape1 df) false ++ PyStr.of_nat (row_count df).

Definition format_range {cell} (df : DataFrame cell) : string :=
  "A2:" ++ _number_to_column (shape1 df) false ++ PyStr.of_nat (row_count df).

(** A service that answers every call at once and keeps the requests it
    received, oldest first, as its world. *)
Module Recorder.

Inductive request : Type :=
| Worksheets (workbook : string)
| WorksheetById (workbook : string) (sheet_id : Z)
| Update (ws : Worksheet) (range : string) (rows : list (list string))
| Clear (ws : Worksheet)
| Format (ws : Worksheet) (range : string) (fmt : pyval)
| Freeze (ws : Worksheet) (rows cols : option Z)
| ClearBasicFilter (ws : Worksheet)
| Other (name : string).

Definition log : Type := list request.

Definition answer {T} (req : request) (v : T) : remote log T :=
  fun l => (Ok v, l ++ [req]).

(** The workbook has the one worksheet [sheet]. *)
Definition service (sheet : Worksheet) : Gspread log string string unit string :=
  {| str_lower := PyStr.lower;
     str_repr := PyStr.repr;
     gc_open := fun c name => answer (Other "open") name;
     sh_worksheets := fun wb => answer (Worksheets wb) [sheet];
     sh_get_worksheet_by_id := fun wb sheet_id => answer (WorksheetById wb sheet_id) sheet;
     worksheet_update := fun ws range rows => answer (Update ws range rows) tt;
     worksheet_clear := fun ws => answer (Clear ws) tt;
     worksheet_format := fun ws range fmt => answer (Format ws range fmt) tt;
     worksheet_freeze := fun ws rows cols => answer (Freeze ws rows cols) tt;
     worksheet_clear_basic_filter := fun ws => answer (ClearBasicFilter ws) tt;
     worksheet_append_row := fun _ _ => answer (Other "append_row") tt;
     worksheet_col_values := fun _ _ => answer (Other "col_values") [];
     worksheet_batch_clear := fun _ _ => answer (Other "batch_clear") tt;
     worksheet_delete_rows := fun _ _ _ => answer (Other "delete_rows") tt;
     worksheet_get_all_values := fun _ => answer (Other "get_all_values") [] |}.

(** The requests of one [replace_worksheet_with_df] that goes through. *)
Definition replacing (wb : string) (ws : Worksheet) (df : DataFrame string) : log :=
  [Worksheets wb; WorksheetById wb (ws_id ws);
   ClearBasicFilter ws; Freeze ws (Some 0%Z) (Some 0%Z);
   Clear ws; Update ws (update_range df) (columns df :: values df)]
  ++ (match values df with
      | [] => []
      | _ :: _ => [Format ws (format_range df) data_row_format]
      end)
  ++ [Freeze ws (Some 1%Z) None].

End Recorder.

(** API errors of the other transient classes, as the service words them. *)
Module Faults.

Definition quota_exceeded : api_error :=
  {| message := "Quota exceeded for quota metric 'Read requests'";
     frames := Double.in_request |}.

Definition unavailable : api_error :=
  {| message := "The Service is currently UNAVAILABLE. Try again later.";
     frames := Double.in_request |}.

End Faults.

(** ** Counting in traces *)

Lemma sleeps_app (t u : trace) : sleeps (t ++ u) = sleeps t + sleeps u.
Proof. unfold sleeps. now rewrite filter_app, length_app. Qed.

Lemma invocations_app name (t u : trace) :
  invocations name (t ++ u) = invocations name t + invocations name u.
Proof. unfold invocations. now rewrite filter_app, length_app. Qed.

Lemma prints_app (t u : trace) : prints (t ++ u) = prints t + prints u.
Proof. unfold prints. now rewrite filter_app, length_app. Qed.

Lemma invocations_self name : invocations name [Invoke name] = 1.
Proof. unfold invocations. simpl. now rewrite String.eqb_refl. Qed.

Lemma sleeps_backoff {R T} name (op : remote R T) c r n :
  sleeps (backoff name op c r n) = n.
Proof.
  induction n as [|k IH]; simpl; [reflexivity|].
  rewrite sleeps_app, IH. unfold sleeps. simpl. lia.
Qed.

Lemma invocations_backoff {R T} name (op : remote R T) c r n :
  invocations name (backoff name op c r n) = n.
Proof.
  induction n as [|k IH]; simpl; [reflexivity|].
  rewrite invocations_app, IH. unfold invocations. simpl.
  rewrite String.eqb_refl. simpl. lia.
Qed.

(** ** The loop, one pass at a time *)

Section RetryFacts.

Context {R T : Type}.
Implicit Types (f : M R T) (op : remote R T) (r : R).

(** The loop test and one pass, as the [while] statement reads. *)
Lemma retry_loop_eq f counter r :
  retry_loop f counter r =
    if counter <? counter_threshold then
      match attempt f counter r with
      | (Exit x, r1, t1) => (x, r1, t1)
      | (Next, r1, t1) =>
          let '(x, r2, t2) := retry_loop f (counter + 1) r1 in (x, r2, t1 ++ t2)
      end
    else let '(x, r1, t1) := f r in (x, r1, Print final_line :: t1).
Proof.
  simp retry_loop.
  destruct (lt_dec counter counter_threshold) as [Hlt|Hge]; simpl.
  - destruct (Nat.ltb_spec counter counter_threshold); [|lia].
    destruct (attempt f counter r) as [[[x|] r1] t1]; reflexivity.
  - destruct (Nat.ltb_spec counter counter_threshold); [lia|reflexivity].
Qed.

(** The counter of a loop state never exceeds the threshold. *)
Lemma loop_state_bound f r0 counter r :
  loop_state f r0 counter r -> counter <= counter_threshold.
Proof. induction 1; lia. Qed.

(** A pass over an invoked operation, by what the invocation returns. *)
Lemma attempt_call name op counter r :
  attempt (call name op) counter r =
    match fst (op r) with
    | Ok v => (Exit (Ok v), snd (op r), [Invoke name])
    | Raise e =>
        match classify e with
        | None => (Exit (Raise e), snd (op r), [Invoke name])
        | Some FATAL =>
            (Exit (Raise e), snd (op r),
             [Invoke name;
              Print match e with APIError a => format_exc a | _ => EmptyString end])
        | Some c =>
            (Next, snd (op r), [Invoke name; Print (retry_line c counter); Sleep 30])
        end
    end.
Proof.
  unfold attempt, call. destruct (op r) as [[v|e] r1]; simpl; [reflexivity|].
  destruct e as [|a| |]; simpl; try reflexivity.
  destruct (classify_api a); reflexivity.
Qed.

Lemma attempt_transient name op counter r :
  transient (fst (op r)) ->
  attempt (call name op) counter r =
    (Next, snd (op r),
     [Invoke name; Print (retry_print (fst (op r)) counter); Sleep 30]).
Proof.
  intros Htr. rewrite attempt_call. unfold transient, retry_print in *.
  destruct (fst (op r)) as [v|e]; [contradiction|].
  destruct (classify e) as [[]|]; try contradiction; reflexivity.
Qed.

(** [n] transient failures in a row take the loop from [counter] to
    [counter + n], leaving the events of [backoff] behind. *)
Lemma retry_loop_backoff name op r n counter :
  counter + n <= counter_threshold ->
  (forall i, i < n -> transient (outcome_at op i r)) ->
  retry_loop (call name op) counter r =
    let '(x, r2, t2) :=
      retry_loop (call name op) (counter + n) (state_after op n r) in
    (x, r2, backoff name op counter r n ++ t2).
Proof.
  induction n as [|k IH]; intros Hle Htr.
  - rewrite Nat.add_0_r. simpl.
    destruct (retry_loop (call name op) counter r) as [[x r2] t2]. reflexivity.
  - rewrite IH by (try lia; intros i Hi; apply Htr; lia).
    rewrite (retry_loop_eq _ (counter + k)).
    destruct (Nat.ltb_spec (counter + k) counter_threshold) as [_|Hge]; [|lia].
    rewrite attempt_transient by (apply (Htr k); lia).
    replace (counter + k + 1) with (counter + S k) by lia.
    change (snd (op (state_after op k r))) with (state_after op (S k) r).
    destruct (retry_loop (call name op) (counter + S k) (state_after op (S k) r))
      as [[x r2] t2].
    simpl. now rewrite <- app_assoc.
Qed.

(** After [n] transient failures the loop state is [(n, state_after n)]. *)
Lemma loop_state_backoff name op r n :
  n <= counter_threshold ->
  (forall i, i < n -> transient (outcome_at op i r)) ->
  loop_state (call name op) r n (state_after op n r).
Proof.
  induction n as [|k IH]; intros Hle Htr; [constructor|].
  replace (S k) with (k + 1) by lia.
  eapply loop_next.
  - apply IH; [lia|]. intros i Hi. apply Htr. lia.
  - lia.
  - rewrite attempt_transient by (apply (Htr k); lia).
    replace (k + 1) with (S k) by lia. reflexivity.
Qed.

(** A loop state is reached through passes that all fell through. *)
Lemma loop_state_inv name op r counter r1 :
  loop_state (call name op) r counter r1 ->
  r1 = state_after op counter r
  /\ forall i, i < counter -> transient (outcome_at op i r).
Proof.
  induction 1 as [|c r1 r2 t1 _ [-> IH] Hlt Hatt].
  - split; [reflexivity|]. intros i Hi. lia.
  - rewrite attempt_call in Hatt. fold (outcome_at op c r) in Hatt.
    assert (Hc : transient (outcome_at op c r) /\ r2 = state_after op (S c) r).
    { unfold transient. simpl.
      destruct (outcome_at op c r) as [v|e]; [discriminate|].
      destruct (classify e) as [[]|]; inversion Hatt; auto. }
    destruct Hc as [Hc ->]. replace (c + 1) with (S c) by lia.
    split; [reflexivity|]. intros i Hi.
    destruct (Nat.eq_dec i c) as [->|]; [assumption|]. apply IH. lia.
Qed.

End RetryFacts.

(** ** Substring search *)

Lemma prefix_nil_r p : prefix p EmptyString = true -> p = EmptyString.
Proof. destruct p; [reflexivity|discriminate]. Qed.

Lemma prefix_nil_l s : prefix EmptyString s = true.
Proof. destruct s; reflexivity. Qed.

Lemma prefix_app p s b : prefix p s = true -> prefix p (s ++ b) = true.
Proof.
  revert p. induction s as [|d s IH]; intros p H.
  - apply prefix_nil_r in H as ->. apply prefix_nil_l.
  - destruct p as [|c p]; [reflexivity|]. simpl in *.
    destruct (ascii_dec c d); [auto|discriminate].
Qed.

Lemma contains_nil s : PyStr.contains EmptyString s = true.
Proof. destruct s; reflexivity. Qed.

Lemma contains_app_l p s b :
  PyStr.contains p s = true -> PyStr.contains p (s ++ b) = true.
Proof.
  induction s as [|c s IH]; intros H.
  - apply prefix_nil_r in H as ->. apply contains_nil.
  - change (prefix p (String c s) || PyStr.contains p s = true) in H.
    change (prefix p (String c s ++ b) || PyStr.contains p (s ++ b) = true).
    apply orb_true_iff in H as [H|H]; apply orb_true_iff.
    + left. now apply prefix_app.
    + right. now apply IH.
Qed.

Lemma contains_app_r p a s :
  PyStr.contains p s = true -> PyStr.contains p (a ++ s) = true.
Proof.
  intros H. induction a as [|c a IH]; [assumption|].
  change (prefix p (String c (a ++ s)) || PyStr.contains p (a ++ s) = true).
  rewrite IH. apply orb_true_r.
Qed.

(** What [str(e)] contains, the traceback text contains. *)
Lemma message_in_format_exc p e :
  PyStr.contains p (message e) = true -> PyStr.contains p (format_exc e) = true.
Proof.
  intros H. unfold format_exc.
  apply contains_app_r, contains_app_r, contains_app_l, H.
Qed.

Lemma frames_in_format_exc p e :
  PyStr.contains p (frames e) = true -> PyStr.contains p (format_exc e) = true.
Proof. intros H. unfold format_exc. now apply contains_app_l. Qed.

(** The fatal API errors are those none of the five tests accepts. *)
Lemma classify_api_fatal e :
  classify_api e = FATAL <->
  PyStr.contains "502" (message e) = false
  /\ PyStr.contains "Server Error" (format_exc e) = false
  /\ PyStr.contains "Quota exceeded" (format_exc e) = false
  /\ PyStr.contains "Read requests per minute per user" (format_exc e) = false
  /\ PyStr.contains "the service is currently unavailable"
       (PyStr.lower (format_exc e)) = false.
Proof.
  unfold classify_api.
  destruct (PyStr.contains "502" (message e));
    destruct (PyStr.contains "Server Error" (format_exc e));
    destruct (PyStr.contains "Quota exceeded" (format_exc e));
    destruct (PyStr.contains "Read requests per minute per user" (format_exc e));
    destruct (PyStr.contains "the service is currently unavailable"
                (PyStr.lower (format_exc e)));
    simpl; split; intros H; try discriminate; try tauto;
    repeat match goal with H : _ /\ _ |- _ => destruct H end; discriminate.
Qed.

(** ** Runs of [gspread_function] over one operation *)

Section Runs.

Context {R T : Type}.
Variable name : string.
Variable op : remote R T.
Variable r : R.

Lemma filter_sleep_backoff c n :
  filter is_sleep (backoff name op c r n) = repeat (Sleep 30) n.
Proof.
  induction n as [|k IH]; [reflexivity|].
  simpl backoff. rewrite filter_app, IH. simpl. now rewrite <- repeat_cons.
Qed.

Lemma prints_backoff c n : prints (backoff name op c r n) = n.
Proof.
  induction n as [|k IH]; simpl; [reflexivity|].
  rewrite prints_app, IH. unfold prints. simpl. lia.
Qed.

(** The loop is left at pass [k] by whatever ends that pass. *)
Lemma run_exit k x t :
  k < counter_threshold ->
  (forall i, i < k -> transient (outcome_at op i r)) ->
  attempt (call name op) k (state_after op k r)
    = (Exit x, state_after op (S k) r, t) ->
  gspread_function (call name op) r
    = (x, state_after op (S k) r, Enter :: (backoff name op 0 r k ++ t) ++ [Leave]).
Proof.
  intros Hk Htr Hatt. unfold gspread_function.
  rewrite (retry_loop_backoff name op r k 0) by (try lia; assumption).
  simpl (0 + k). rewrite retry_loop_eq.
  destruct (Nat.ltb_spec k counter_threshold) as [_|]; [|lia].
  rewrite Hatt. reflexivity.
Qed.

(** Nine transient failures: the final attempt decides. *)
Lemma run_exhausted :
  (forall i, i < counter_threshold -> transient (outcome_at op i r)) ->
  gspread_function (call name op) r
    = (outcome_at op counter_threshold r,
       state_after op (S counter_threshold) r,
       Enter :: (backoff name op 0 r counter_threshold
                   ++ [Print final_line; Invoke name]) ++ [Leave]).
Proof.
  intros Htr. unfold gspread_function.
  rewrite (retry_loop_backoff name op r counter_threshold 0) by (try lia; assumption).
  change (0 + counter_threshold) with counter_threshold. rewrite retry_loop_eq.
  destruct (Nat.ltb_spec counter_threshold counter_threshold) as [|_]; [lia|].
  change (state_after op (S counter_threshold) r)
    with (snd (op (state_after op counter_threshold r))).
  unfold call, outcome_at.
  destruct (op (state_after op counter_threshold r)) as [x r1]. reflexivity.
Qed.

End Runs.

(** ** The retry policy of [gspread_function] *)

Ltac conjuncts := repeat match goal with |- _ /\ _ => split end.

(** C1.  An operation that fails with a transient classification at each of
    its first nine invocations: the loop counter stays at or below the
    threshold of 9 and reaches it, nine backoff sleeps of 30 are made, and
    the operation is invoked a tenth time outside the loop; whatever that
    invocation returns or raises is the outcome of [gspread_function], with
    nothing printed or slept after it.  Ten invocations in all. *)
Theorem gspread_function_exhausts_retries {R T} (name : string) (op : remote R T) (r : R) :
  (forall i, i < counter_threshold -> transient (outcome_at op i r)) ->
  let f := call name op in
  let t := backoff name op 0 r counter_threshold ++ [Print final_line; Invoke name] in
  gspread_function f r
    = (outcome_at op 9 r, state_after op 10 r, Enter :: t ++ [Leave])
  /\ filter is_sleep t = repeat (Sleep 30) 9
  /\ sleeps t = 9
  /\ invocations name t = 10
  /\ (forall counter r1, loop_state f r counter r1 -> counter <= counter_threshold)
  /\ loop_state f r counter_threshold (state_after op 9 r).
Proof.
  intros Htr f t. conjuncts.
  - apply run_exhausted, Htr.
  - unfold t. rewrite filter_app, filter_sleep_backoff. simpl. rewrite ?app_nil_r. reflexivity.
  - unfold t. rewrite sleeps_app, sleeps_backoff. reflexivity.
  - unfold t. rewrite invocations_app, invocations_backoff.
    unfold invocations. simpl. rewrite String.eqb_refl. reflexivity.
  - intros counter r1. apply loop_state_bound.
  - apply (loop_state_backoff name op r counter_threshold); [apply Nat.le_refl|exact Htr].
Qed.

(** C2.  An operation whose first invocation raises an API error that none
    of the substring tests accepts: the traceback is printed and the same
    exception is raised again at once; no sleep, no second invocation, and
    the loop never gets to a counter other than 0. *)
Theorem gspread_function_fatal_api_error {R T} (name : string) (op : remote R T) (r : R)
    (a : api_error) :
  outcome_at op 0 r = Raise (APIError a) ->
  classify_api a = FATAL ->
  let f := call name op in
  let t := [Invoke name; Print (format_exc a)] in
  gspread_function f r = (Raise (APIError a), state_after op 1 r, Enter :: t ++ [Leave])
  /\ sleeps t = 0
  /\ invocations name t = 1
  /\ (forall counter r1, loop_state f r counter r1 -> counter = 0).
Proof.
  intros Hout Hfatal f t.
  assert (Hatt : attempt f 0 r
                 = (Exit (Raise (APIError a)), state_after op 1 r, t)).
  { unfold f. rewrite attempt_call. unfold outcome_at in Hout. simpl in Hout.
    rewrite Hout. simpl. rewrite Hfatal. reflexivity. }
  conjuncts.
  - apply (run_exit name op r 0); [unfold counter_threshold; lia | intros i Hi; lia | exact Hatt].
  - reflexivity.
  - unfold invocations. simpl. rewrite String.eqb_refl. reflexivity.
  - intros counter r1 Hst. destruct counter as [|c]; [reflexivity|].
    apply loop_state_inv in Hst as [_ Htr].
    specialize (Htr 0 (Nat.lt_0_succ c)). rewrite Hout in Htr.
    simpl in Htr. rewrite Hfatal in Htr. contradiction.
Qed.

(** C3.  An operation that fails with a transient classification [k] times,
    [k < 9], and then returns [v]: [gspread_function] returns [v] after
    exactly [k] backoff sleeps and [k + 1] invocations.  For [k = 0], an
    operation that succeeds at once, the result comes from the first
    invocation and nothing is printed or slept. *)
Theorem gspread_function_succeeds_after_retries {R T} (name : string) (op : remote R T)
    (r : R) (k : nat) (v : T) :
  k < counter_threshold ->
  (forall i, i < k -> transient (outcome_at op i r)) ->
  outcome_at op k r = Ok v ->
  let t := backoff name op 0 r k ++ [Invoke name] in
  gspread_function (call name op) r = (Ok v, state_after op (S k) r, Enter :: t ++ [Leave])
  /\ filter is_sleep t = repeat (Sleep 30) k
  /\ sleeps t = k
  /\ invocations name t = S k
  /\ (k = 0 -> t = [Invoke name] /\ prints t = 0).
Proof.
  intros Hk Htr Hout t. conjuncts.
  - apply (run_exit name op r k); [exact Hk|exact Htr|].
    rewrite attempt_call. unfold outcome_at in Hout. rewrite Hout. reflexivity.
  - unfold t. rewrite filter_app, filter_sleep_backoff. simpl. rewrite ?app_nil_r. reflexivity.
  - unfold t. rewrite sleeps_app, sleeps_backoff. unfold sleeps. simpl. lia.
  - unfold t. rewrite invocations_app, invocations_backoff, invocations_self. lia.
  - intros Hk0. unfold t. rewrite Hk0. split; reflexivity.
Qed.

(** C4.  An operation whose first invocation raises an exception that is
    neither a JSON decode error nor an API error: no handler catches it; it
    leaves [gspread_function] as it is, after one invocation, with nothing
    printed and no sleep. *)
Theorem gspread_function_other_error {R T} (name : string) (op : remote R T) (r : R)
    (e : exn) :
  outcome_at op 0 r = Raise e ->
  e <> JSONDecodeError ->
  (forall a, e <> APIError a) ->
  let t := [Invoke name] in
  gspread_function (call name op) r = (Raise e, state_after op 1 r, Enter :: t ++ [Leave])
  /\ classify e = None
  /\ sleeps t = 0
  /\ prints t = 0
  /\ invocations name t = 1.
Proof.
  intros Hout Hjson Hapi t.
  assert (Hnone : classify e = None).
  { destruct e as [|a| |]; try reflexivity; [contradiction|].
    exfalso. exact (Hapi a eq_refl). }
  conjuncts; try assumption.
  - apply (run_exit name op r 0); [unfold counter_threshold; lia | intros i Hi; lia |].
    cbn [state_after]. rewrite attempt_call. unfold outcome_at in Hout. simpl in Hout.
    rewrite Hout, Hnone. reflexivity.
  - reflexivity.
  - reflexivity.
  - apply invocations_self.
Qed.

(** C5, as the code has it.  An API error raised inside the loop whose
    message contains "502", or whose message or stack trace contains
    "Server Error", is classified TRANSIENT_SERVER_502: the attempt number
    is printed, 30 is slept, and the loop goes on with the counter
    incremented, the exception dropped. *)
Theorem server_502_is_retried {R T} (name : string) (op : remote R T) (r : R)
    (counter : nat) (a : api_error) :
  counter < counter_threshold ->
  fst (op r) = Raise (APIError a) ->
  PyStr.contains "502" (message a) = true
  \/ PyStr.contains "Server Error" (message a) = true
  \/ PyStr.contains "Server Error" (frames a) = true
  \/ PyStr.contains "Server Error" (format_exc a) = true ->
  let line := ("502 Server Error. Retrying (" ++ PyStr.of_nat (counter + 1) ++ "/9)...")%string in
  let t := [Invoke name; Print line; Sleep 30] in
  classify_api a = TRANSIENT_SERVER_502
  /\ attempt (call name op) counter r = (Next, snd (op r), t)
  /\ retry_loop (call name op) counter r
     = (let '(x, r2, t2) := retry_loop (call name op) (counter + 1) (snd (op r)) in
        (x, r2, t ++ t2)).
Proof.
  intros Hlt Hout Hpat line t.
  assert (Hc : classify_api a = TRANSIENT_SERVER_502).
  { unfold classify_api.
    destruct Hpat as [H|[H|[H|H]]].
    - rewrite H. reflexivity.
    - rewrite (message_in_format_exc _ _ H), orb_true_r. reflexivity.
    - rewrite (frames_in_format_exc _ _ H), orb_true_r. reflexivity.
    - rewrite H, orb_true_r. reflexivity. }
  assert (Hatt : attempt (call name op) counter r = (Next, snd (op r), t)).
  { rewrite attempt_call, Hout. simpl. rewrite Hc. reflexivity. }
  conjuncts; try assumption.
  rewrite retry_loop_eq.
  destruct (Nat.ltb_spec counter counter_threshold) as [_|]; [|lia].
  rewrite Hatt. reflexivity.
Qed.

(** *** The policy on concrete operations *)

(** A service that answers every call with a malformed body: nine sleeps,
    ten invocations, and the tenth failure comes out. *)
Lemma gspread_function_exhausts_retries_witness :
  (forall i, i < counter_threshold ->
     transient (outcome_at (Double.always (T := Z) (Raise JSONDecodeError)) i 0))
  /\ fst (gspread_function (call "sheet.col_values"
                              (Double.always (T := Z) (Raise JSONDecodeError))) 0)
     = (Raise JSONDecodeError, 10).
Proof.
  assert (H : forall i, i < counter_threshold ->
                transient (outcome_at (Double.always (T := Z) (Raise JSONDecodeError)) i 0)).
  { intros i _. exact I. }
  split; [exact H|].
  destruct (gspread_function_exhausts_retries "sheet.col_values" _ 0 H) as [E _].
  rewrite E. reflexivity.
Defined.

(** Scenario: an API error with "502 Server Error" at every call; after nine
    sleeps the exception of the tenth call propagates. *)
Example bad_gateway_every_time :
  let '(x, calls, t) :=
    gspread_function (call "gc.open" (Double.gateway_down "gc" "Budget")) 0 in
  x = Raise (APIError Double.bad_gateway) /\ calls = 10 /\ sleeps t = 9
  /\ invocations "gc.open" t = 10
  /\ nth 2 t Leave = Print "502 Server Error. Retrying (1/9)..."
  /\ nth 26 t Leave = Print "502 Server Error. Retrying (9/9)..."
  /\ nth 28 t Leave = Print final_line.
Proof. vm_compute. repeat split. Qed.

(** "Invalid range" matches none of the patterns. *)
Lemma gspread_function_fatal_api_error_witness :
  outcome_at (Double.always (T := unit) (Raise (APIError Double.invalid_range))) 0 0
    = Raise (APIError Double.invalid_range)
  /\ classify_api Double.invalid_range = FATAL
  /\ gspread_function
       (call "worksheet.update"
          (Double.always (T := unit) (Raise (APIError Double.invalid_range)))) 0
     = (Raise (APIError Double.invalid_range), 1,
        [Enter; Invoke "worksheet.update"; Print (format_exc Double.invalid_range); Leave]).
Proof.
  split; [reflexivity|]. split; [reflexivity|].
  exact (proj1 (gspread_function_fatal_api_error "worksheet.update"
                  (Double.always (Raise (APIError Double.invalid_range))) 0
                  Double.invalid_range eq_refl eq_refl)).
Defined.

(** Scenario: a malformed response twice, then 42. *)
Lemma gspread_function_succeeds_after_retries_witness :
  2 < counter_threshold
  /\ (forall i, i < 2 -> transient (outcome_at Double.twice_malformed_then_42 i 0))
  /\ outcome_at Double.twice_malformed_then_42 2 0 = Ok 42%Z
  /\ gspread_function (call "sheet.col_values" Double.twice_malformed_then_42) 0
     = (Ok 42%Z, 3,
        [Enter;
         Invoke "sheet.col_values"; Print "JSONDecodeError. Sleeping for 30 seconds.";
         Sleep 30;
         Invoke "sheet.col_values"; Print "JSONDecodeError. Sleeping for 30 seconds.";
         Sleep 30;
         Invoke "sheet.col_values";
         Leave]).
Proof.
  assert (Hk : 2 < counter_threshold) by (unfold counter_threshold; lia).
  assert (Htr : forall i, i < 2 -> transient (outcome_at Double.twice_malformed_then_42 i 0)).
  { intros [|[|i]] Hi; [exact I|exact I|lia]. }
  split; [exact Hk|]. split; [exact Htr|]. split; [reflexivity|].
  exact (proj1 (gspread_function_succeeds_after_retries "sheet.col_values"
                  Double.twice_malformed_then_42 0 2 42%Z Hk Htr eq_refl)).
Defined.

(** A [KeyError] is not the wrapper's business. *)
Lemma gspread_function_other_error_witness :
  outcome_at (Double.always (T := unit) (Raise (OtherError "KeyError" "'rows'"))) 0 0
    = Raise (OtherError "KeyError" "'rows'")
  /\ OtherError "KeyError" "'rows'" <> JSONDecodeError
  /\ (forall a, OtherError "KeyError" "'rows'" <> APIError a)
  /\ gspread_function
       (call "sheet.append_row"
          (Double.always (T := unit) (Raise (OtherError "KeyError" "'rows'")))) 0
     = (Raise (OtherError "KeyError" "'rows'"), 1,
        [Enter; Invoke "sheet.append_row"; Leave]).
Proof.
  assert (H1 : OtherError "KeyError" "'rows'" <> JSONDecodeError) by discriminate.
  assert (H2 : forall a, OtherError "KeyError" "'rows'" <> APIError a) by discriminate.
  split; [reflexivity|]. split; [exact H1|]. split; [exact H2|].
  exact (proj1 (gspread_function_other_error "sheet.append_row"
                  (Double.always (Raise (OtherError "KeyError" "'rows'"))) 0 _
                  eq_refl H1 H2)).
Defined.

(** C5 as the claim words it fails: "502" in the stack trace alone does not
    make an API error transient.  The traceback of this "Invalid range"
    error passes through line 502 of a caller's file; the error is fatal and
    is raised again at the first attempt, without a sleep. *)
Lemma server_502_in_stack_trace_only_is_fatal :
  PyStr.contains "502" (frames Double.invalid_range_at_line_502) = true
  /\ PyStr.contains "502" (format_exc Double.invalid_range_at_line_502) = true
  /\ classify_api Double.invalid_range_at_line_502 = FATAL
  /\ gspread_function
       (call "worksheet.update"
          (Double.always (T := unit)
             (Raise (APIError Double.invalid_range_at_line_502)))) 0
     = (Raise (APIError Double.invalid_range_at_line_502), 1,
        [Enter; Invoke "worksheet.update";
         Print (format_exc Double.invalid_range_at_line_502); Leave]).
Proof. vm_compute. repeat split. Qed.

(** A bad gateway at the fourth pass of the loop. *)
Lemma server_502_is_retried_witness :
  3 < counter_threshold
  /\ fst (Double.gateway_down "gc" "Budget" 3) = Raise (APIError Double.bad_gateway)
  /\ PyStr.contains "502" (message Double.bad_gateway) = true
  /\ attempt (call "gc.open" (Double.gateway_down "gc" "Budget")) 3 3
     = (Next, 4,
        [Invoke "gc.open"; Print "502 Server Error. Retrying (4/9)..."; Sleep 30]).
Proof.
  assert (Hlt : 3 < counter_threshold) by (unfold counter_threshold; lia).
  split; [exact Hlt|]. split; [reflexivity|]. split; [reflexivity|].
  exact (proj1 (proj2 (server_502_is_retried "gc.open"
                         (Double.gateway_down "gc" "Budget") 3 3 Double.bad_gateway
                         Hlt eq_refl (or_introl eq_refl)))).
Defined.

(** ** The class: sheet references *)

Section References.

Context {R client workbook response cell : Type}.
Variable api : Gspread R client workbook response cell.
Variable self : GSPREAD client workbook.

(** C9.  Each of the eight methods that take a sheet reference, given a
    reference that is neither a [Worksheet] nor a [str] nor an [int],
    raises the [ValueError] of [_sheet_check] and does nothing else: the
    world is untouched and the trace is empty, so no operation was
    invoked, no [gspread_function] entered, nothing slept. *)
Theorem invalid_sheet_reference_rejected (type_name : string) (r : R)
    (cell_range range : string) (vals : list (list cell)) (row : list cell)
    (index starting_index ending_index : Z) :
  let sheet := SheetOther type_name in
  rejected (_sheet_check api self sheet r) r
  /\ rejected (update_rows_by_range api self sheet cell_range vals r) r
  /\ rejected (sheet_to_df api self sheet r) r
  /\ rejected (append_row_to_sheet api self sheet row r) r
  /\ rejected (get_sheet_url api self sheet r) r
  /\ rejected (get_column_values api self sheet index r) r
  /\ rejected (batch_clear api self sheet range r) r
  /\ rejected (clear_basic_filter api self sheet r) r
  /\ rejected (delete_rows api self sheet starting_index ending_index r) r.
Proof. intros sheet. conjuncts; reflexivity. Qed.

End References.

(** ** The class: opening the workbook *)

Section Opening.

Context {R client workbook response cell : Type}.
Variable api : Gspread R client workbook response cell.
Variable gc : client.

(** [open_workbook] does not look at the instance. *)
Lemma open_workbook_ignores_self (c1 c2 : client) (workbook_name : string) :
  open_workbook api gc c1 workbook_name = open_workbook api gc c2 workbook_name.
Proof. reflexivity. Qed.

(** What [__init__] does once the instance client [c] is created. *)
Lemma init_run (service_account : remote R client) (workbook_name : string)
    (r r0 : R) (c : client) :
  service_account r = (Ok c, r0) ->
  __init__ service_account api gc workbook_name r =
    let '(x, r1, t) := gspread_function (open_workbook api gc c workbook_name) r0 in
    (result_map (fun s => {| self_gc := c; sh := s |}) x, r1,
     Invoke "gspread.service_account" :: t).
Proof.
  intros Hsa. unfold __init__, bind, call. rewrite Hsa.
  destruct (gspread_function (open_workbook api gc c workbook_name) r0) as [[[s|e] r1] t];
    simpl; [rewrite app_nil_r|]; reflexivity.
Qed.

(** C10.  Two runs of [__init__] from the same world and with the same
    global client, in which [gspread.service_account()] hands out
    different instance clients: the same workbook is opened (or the same
    exception raised), the world ends up the same and the same events are
    observed.  The workbook is the one the global client opens. *)
Theorem init_opens_with_global_client (sa1 sa2 : remote R client)
    (workbook_name : string) (r r0 : R) (c1 c2 : client) :
  sa1 r = (Ok c1, r0) ->
  sa2 r = (Ok c2, r0) ->
  let '(x1, w1, t1) := __init__ sa1 api gc workbook_name r in
  let '(x2, w2, t2) := __init__ sa2 api gc workbook_name r in
  result_map sh x1 = result_map sh x2 /\ w1 = w2 /\ t1 = t2
  /\ result_map self_gc x1 = result_map (fun _ => c1) x1
  /\ result_map self_gc x2 = result_map (fun _ => c2) x2
  /\ (result_map sh x1, w1)
     = fst (gspread_function
              (gspread_function (call "gc.open" (gc_open api gc workbook_name))) r0).
Proof.
  intros H1 H2. rewrite (init_run sa1 _ r r0 c1 H1), (init_run sa2 _ r r0 c2 H2).
  rewrite (open_workbook_ignores_self c2 c1). unfold open_workbook.
  destruct (gspread_function
              (gspread_function (call "gc.open" (gc_open api gc workbook_name))) r0)
    as [[[s|e] w] t]; simpl; conjuncts; reflexivity.
Qed.

End Opening.

(** The instance gets the client "instance" in one run and "another" in the
    other; in both the workbook is the one the client "global" opens. *)
Lemma init_opens_with_global_client_witness :
  Double.always (Ok "instance") 0 = (Ok "instance", 1)
  /\ Double.always (Ok "another") 0 = (Ok "another", 1)
  /\ (let '(x1, w1, t1) :=
        __init__ (Double.always (Ok "instance")) (Double.service Double.opens [])
          "global" "Budget" 0 in
      let '(x2, w2, t2) :=
        __init__ (Double.always (Ok "another")) (Double.service Double.opens [])
          "global" "Budget" 0 in
      result_map sh x1 = result_map sh x2 /\ w1 = w2 /\ t1 = t2
      /\ result_map self_gc x1 = result_map (fun _ => "instance") x1
      /\ result_map self_gc x2 = result_map (fun _ => "another") x2
      /\ (result_map sh x1, w1)
         = fst (gspread_function
                  (gspread_function
                     (call "gc.open"
                        (gc_open (Double.service Double.opens []) "global" "Budget"))) 1)).
Proof.
  split; [reflexivity|]. split; [reflexivity|].
  exact (init_opens_with_global_client (Double.service Double.opens []) "global"
           (Double.always (Ok "instance")) (Double.always (Ok "another"))
           "Budget" 0 1 "instance" "another" eq_refl eq_refl).
Defined.

Example init_keeps_the_instance_client_aside :
  fst (fst (__init__ (Double.always (Ok "instance")) (Double.service Double.opens [])
              "global" "Budget" 0))
  = Ok {| self_gc := "instance"; sh := "global/Budget" |}.
Proof. reflexivity. Qed.

(** C6 on the code: [__init__] hands [open_workbook], itself a
    [gspread_function] around [gc.open], to a second [gspread_function].
    With a gateway that is down, every one of the outer ten attempts runs
    the inner ten: [gc.open] is invoked 100 times, each time under two
    activations of the wrapper, and 99 sleeps of 30 are made before the
    exception comes out. *)
Theorem init_invokes_open_a_hundred_times :
  let '(x, calls, t) :=
    __init__ (Double.always (Ok "instance")) (Double.service Double.gateway_down [])
      "global" "Budget" 0 in
  x = Raise (APIError Double.bad_gateway)
  /\ invocations "gc.open" t = 100
  /\ sleeps t = 99
  /\ calls = 101
  /\ filter (fun p => String.eqb (fst p) "gc.open") (invoke_depths 0 t)
     = repeat ("gc.open", 2) 100.
Proof. vm_compute. conjuncts; reflexivity. Qed.

(** [open_workbook] called on its own goes through one wrapper. *)
Example open_workbook_invokes_open_ten_times :
  let '(x, calls, t) :=
    open_workbook (Double.service Double.gateway_down []) "global" "instance" "Budget" 0 in
  x = Raise (APIError Double.bad_gateway)
  /\ invocations "gc.open" t = 10
  /\ sleeps t = 9
  /\ invoke_depths 0 t = repeat ("gc.open", 1) 10.
Proof. vm_compute. conjuncts; reflexivity. Qed.

(** ** Dictionaries built by comprehension *)

Section DictFacts.

Context {V : Type}.
Implicit Types (d : PyDict.dict V) (k : string) (v : V).

Lemma in_set p d k v : In p (PyDict.set d k v) -> p = (k, v) \/ In p d.
Proof.
  induction d as [|[k' v'] rest IH]; simpl.
  - intros [<-|[]]. now left.
  - destruct (String.eqb_spec k' k) as [->|Hne]; simpl.
    + intros [<-|H]; auto.
    + intros [<-|H]; auto. destruct (IH H); auto.
Qed.

Lemma keys_set d k v x :
  In x (PyDict.keys (PyDict.set d k v)) <-> x = k \/ In x (PyDict.keys d).
Proof.
  unfold PyDict.keys. induction d as [|[k' v'] rest IH]; simpl.
  - intuition.
  - destruct (String.eqb_spec k' k) as [->|Hne]; simpl; [intuition|].
    rewrite IH. intuition.
Qed.

Lemma set_fresh d k v : ~ In k (PyDict.keys d) -> PyDict.set d k v = d ++ [(k, v)].
Proof.
  unfold PyDict.keys. induction d as [|[k' v'] rest IH]; simpl; intros Hk; [reflexivity|].
  destruct (String.eqb_spec k' k) as [->|Hne]; [tauto|].
  rewrite IH; [reflexivity|tauto].
Qed.

Lemma get_some_in d k v : PyDict.get d k = Some v -> In (k, v) d.
Proof.
  induction d as [|[k' v'] rest IH]; simpl; [discriminate|].
  destruct (String.eqb_spec k' k) as [->|Hne]; [intros [= ->]|]; auto.
Qed.

Lemma mem_keys d k : PyDict.mem k d = true <-> In k (PyDict.keys d).
Proof.
  unfold PyDict.mem, PyDict.keys. induction d as [|[k' v'] rest IH]; simpl.
  - split; [discriminate|tauto].
  - destruct (String.eqb_spec k' k) as [->|Hne]; [intuition|].
    rewrite IH. intuition.
Qed.

Section Comprehension.

Context {A : Type}.
Variables (key : A -> string) (val : A -> V).

Let step := fun d a => PyDict.set d (key a) (val a).

Lemma in_fold l d0 p :
  In p (fold_left step l d0) ->
  In p d0 \/ exists a, In a l /\ p = (key a, val a).
Proof.
  revert d0. induction l as [|a l IH]; simpl; intros d0 H; [auto|].
  destruct (IH _ H) as [H1|[b [Hb ->]]].
  - destruct (in_set _ _ _ _ H1) as [->|H2]; eauto.
  - eauto.
Qed.

Lemma keys_fold l d0 x :
  In x (PyDict.keys (fold_left step l d0)) <->
  In x (PyDict.keys d0) \/ exists a, In a l /\ key a = x.
Proof.
  revert d0. induction l as [|a l IH]; simpl; intros d0.
  - split; [auto|]. intros [H|[a [[] _]]]. exact H.
  - rewrite IH. change (step d0 a) with (PyDict.set d0 (key a) (val a)).
    rewrite keys_set. split.
    + intros [[->|H]|[b [Hb <-]]]; eauto.
    + intros [H|[b [[->|Hb] <-]]]; eauto.
Qed.

Lemma fold_fresh l d0 :
  NoDup (map key l) ->
  (forall a, In a l -> ~ In (key a) (PyDict.keys d0)) ->
  fold_left step l d0 = d0 ++ map (fun a => (key a, val a)) l.
Proof.
  revert d0. induction l as [|a l IH]; simpl; intros d0 Hnd Hfresh.
  - now rewrite app_nil_r.
  - inversion Hnd as [|? ? Hnotin Hnd']; subst.
    change (step d0 a) with (PyDict.set d0 (key a) (val a)).
    rewrite set_fresh by auto.
    rewrite IH; [now rewrite <- app_assoc|assumption|].
    intros b Hb. unfold PyDict.keys. rewrite map_app, in_app_iff. simpl.
    intros [H|[H|[]]]; [exact (Hfresh b (or_intror Hb) H)|].
    apply Hnotin. rewrite H. now apply in_map.
Qed.

Lemma in_comprehension l p :
  In p (PyDict.comprehension key val l) -> exists a, In a l /\ p = (key a, val a).
Proof. intros H. destruct (in_fold l [] p H) as [[]|H']. exact H'. Qed.

Lemma keys_comprehension l x :
  In x (PyDict.keys (PyDict.comprehension key val l)) <-> exists a, In a l /\ key a = x.
Proof.
  unfold PyDict.comprehension. fold step. rewrite keys_fold. simpl. tauto.
Qed.

Lemma comprehension_nodup l :
  NoDup (map key l) ->
  PyDict.comprehension key val l = map (fun a => (key a, val a)) l.
Proof. intros Hnd. apply (fold_fresh l [] Hnd). intros a _ []. Qed.

Lemma get_map_nodup l a :
  NoDup (map key l) -> In a l ->
  PyDict.get (map (fun a => (key a, val a)) l) (key a) = Some (val a).
Proof.
  induction l as [|b l IH]; simpl; intros Hnd Hin; [contradiction|].
  inversion Hnd as [|? ? Hnotin Hnd']; subst.
  destruct (String.eqb_spec (key b) (key a)) as [Heq|Hne].
  - destruct Hin as [->|Hin]; [reflexivity|].
    exfalso. apply Hnotin. rewrite Heq. now apply in_map.
  - destruct Hin as [->|Hin]; [congruence|auto].
Qed.

End Comprehension.

End DictFacts.

(** Setting keys: where a value is found afterwards. *)
Section DictOrder.

Context {V : Type}.
Implicit Types (d : PyDict.dict V) (k : string) (v : V).

Lemma get_set_same d k v : PyDict.get (PyDict.set d k v) k = Some v.
Proof.
  induction d as [|[k' v'] rest IH]; simpl; [now rewrite String.eqb_refl|].
  destruct (String.eqb_spec k' k) as [->|Hne]; simpl.
  - now rewrite String.eqb_refl.
  - destruct (String.eqb_spec k' k); [contradiction|exact IH].
Qed.

Lemma get_set_other d k v k' :
  k <> k' -> PyDict.get (PyDict.set d k v) k' = PyDict.get d k'.
Proof.
  intros Hne. induction d as [|[k0 v0] rest IH]; simpl.
  - destruct (String.eqb_spec k k'); [contradiction|reflexivity].
  - destruct (String.eqb_spec k0 k) as [->|Hne0]; simpl.
    + destruct (String.eqb_spec k k'); [contradiction|reflexivity].
    + destruct (String.eqb_spec k0 k'); [reflexivity|exact IH].
Qed.

Lemma keys_set_nodup d k v :
  NoDup (PyDict.keys d) -> NoDup (PyDict.keys (PyDict.set d k v)).
Proof.
  unfold PyDict.keys. induction d as [|[k' v'] rest IH]; simpl; intros Hnd.
  - constructor; [tauto|constructor].
  - inversion Hnd as [|? ? Hnotin Hnd']; subst.
    destruct (String.eqb_spec k' k) as [->|Hne]; simpl; [exact Hnd|].
    constructor; [|auto].
    intros Hin. apply (keys_set rest k v k') in Hin as [Heq|Hin]; [congruence|].
    exact (Hnotin Hin).
Qed.

Section Folded.

Context {A : Type}.
Variables (key : A -> string) (val : A -> V).

Lemma keys_fold_nodup l d0 :
  NoDup (PyDict.keys d0) ->
  NoDup (PyDict.keys (fold_left (fun d a => PyDict.set d (key a) (val a)) l d0)).
Proof.
  revert d0. induction l as [|a l IH]; simpl; intros d0 Hnd; [exact Hnd|].
  apply IH, keys_set_nodup, Hnd.
Qed.

Lemma get_fold_other l d0 k :
  (forall a, In a l -> key a <> k) ->
  PyDict.get (fold_left (fun d a => PyDict.set d (key a) (val a)) l d0) k
    = PyDict.get d0 k.
Proof.
  revert d0. induction l as [|a l IH]; simpl; intros d0 Hother; [reflexivity|].
  rewrite IH by auto. apply get_set_other. auto.
Qed.

(** The last item with a given key decides the value. *)
Lemma comprehension_last_wins pre a post :
  (forall b, In b post -> key b <> key a) ->
  PyDict.get (PyDict.comprehension key val (pre ++ a :: post)) (key a) = Some (val a).
Proof.
  intros Hpost. unfold PyDict.comprehension. rewrite fold_left_app. simpl.
  rewrite get_fold_other by exact Hpost. apply get_set_same.
Qed.

End Folded.

End DictOrder.

(** The lowered dictionary holds exactly the lowered titles, each with the
    id of a worksheet of that lowered title. *)
Lemma lowered_names_keys lower wss k :
  In k (PyDict.keys (lowered_names lower wss)) <->
  exists ws, In ws wss /\ k = lower (ws_title ws).
Proof.
  unfold lowered_names, PyDict.items. rewrite keys_comprehension. split.
  - intros [p [Hp <-]]. apply in_comprehension in Hp as [ws [Hws ->]]. eauto.
  - intros [ws [Hws ->]].
    assert (Hk : In (ws_title ws) (PyDict.keys (PyDict.comprehension ws_title ws_id wss))).
    { apply keys_comprehension. eauto. }
    unfold PyDict.keys in Hk. apply in_map_iff in Hk as [p [Hfst Hp]].
    exists p. rewrite Hfst. auto.
Qed.

Lemma lowered_names_get lower wss k i :
  PyDict.get (lowered_names lower wss) k = Some i ->
  exists ws, In ws wss /\ lower (ws_title ws) = k /\ ws_id ws = i.
Proof.
  intros H. apply get_some_in in H. unfold lowered_names, PyDict.items in H.
  apply in_comprehension in H as [p [Hp [= -> ->]]].
  apply in_comprehension in Hp as [ws [Hws ->]]. eauto.
Qed.

Lemma lowered_names_nodup lower wss ws :
  NoDup (map (fun w => lower (ws_title w)) wss) -> In ws wss ->
  PyDict.get (lowered_names lower wss) (lower (ws_title ws)) = Some (ws_id ws).
Proof.
  intros Hnd Hin. unfold lowered_names, PyDict.items.
  assert (Hnd1 : NoDup (map ws_title wss)).
  { rewrite <- (map_map ws_title lower) in Hnd. exact (NoDup_map_inv _ _ Hnd). }
  rewrite (comprehension_nodup ws_title ws_id wss Hnd1).
  rewrite comprehension_nodup by (rewrite map_map; exact Hnd).
  rewrite map_map. simpl.
  exact (get_map_nodup (fun w => lower (ws_title w)) ws_id wss ws Hnd Hin).
Qed.

(** ** Lowering and printing names *)

Lemma all_chars_complete (c : ascii) : In c all_chars.
Proof.
  unfold all_chars. rewrite <- (ascii_nat_embedding c). apply in_map, in_seq.
  pose proof (nat_ascii_bounded c). lia.
Qed.

(** Lowering identifies the characters that are the same up to case, and
    no others. *)
Lemma same_letter_lower (a b : ascii) :
  Ascii.eqb (PyStr.lower_ascii a) (PyStr.lower_ascii b) = same_letter a b.
Proof.
  assert (H : forallb
                (fun a => forallb
                   (fun b => Bool.eqb
                      (Ascii.eqb (PyStr.lower_ascii a) (PyStr.lower_ascii b))
                      (same_letter a b)) all_chars) all_chars = true)
    by (vm_compute; reflexivity).
  rewrite forallb_forall in H. specialize (H a (all_chars_complete a)).
  rewrite forallb_forall in H. specialize (H b (all_chars_complete b)).
  now apply Bool.eqb_prop in H.
Qed.

Lemma lower_equal_up_to_case (s t : string) :
  PyStr.lower s = PyStr.lower t <-> equal_up_to_case s t = true.
Proof.
  revert t. induction s as [|a s IH]; intros [|b t]; simpl;
    try (split; [reflexivity + discriminate|reflexivity + discriminate]).
  rewrite andb_true_iff, <- same_letter_lower, <- IH. split.
  - intros [= H1 H2]. split; [rewrite H1; apply Ascii.eqb_refl|exact H2].
  - intros [H1 H2]. apply Ascii.eqb_eq in H1. congruence.
Qed.

Lemma plain_ascii_only (s : string) : plain s -> PyStr.ascii_only s.
Proof.
  induction s as [|c s IH]; simpl; [trivial|].
  intros [[Hr _] Hs]. split; [lia|auto].
Qed.

Lemma plain_has_no_quote (s : string) : plain s -> PyStr.has_char PyStr.squote s = false.
Proof.
  induction s as [|c s IH]; [reflexivity|].
  intros [[_ [Hq _]] Hs].
  change (Ascii.eqb PyStr.squote c || PyStr.has_char PyStr.squote s = false).
  rewrite (IH Hs).
  destruct (Ascii.eqb_spec PyStr.squote c) as [<-|]; [|reflexivity].
  exfalso. apply Hq. reflexivity.
Qed.

Lemma repr_char_plain (c : ascii) :
  plain_char c -> PyStr.repr_char PyStr.squote c = String c EmptyString.
Proof.
  intros [Hr [Hq Hb]]. unfold PyStr.repr_char. cbv zeta.
  destruct (Ascii.eqb_spec c PyStr.backslash) as [->|_]; [exfalso; apply Hb; reflexivity|].
  destruct (Ascii.eqb_spec c PyStr.squote) as [->|_]; [exfalso; apply Hq; reflexivity|].
  destruct (Nat.eqb_spec (nat_of_ascii c) 10); [lia|].
  destruct (Nat.eqb_spec (nat_of_ascii c) 13); [lia|].
  destruct (Nat.eqb_spec (nat_of_ascii c) 9); [lia|].
  destruct (Nat.ltb_spec (nat_of_ascii c) 32); [lia|].
  destruct (Nat.eqb_spec (nat_of_ascii c) 127); [lia|].
  reflexivity.
Qed.

(** [repr] puts a plain name between single quotes. *)
Lemma repr_plain (s : string) : plain s -> PyStr.repr s = quoted s.
Proof.
  intros Hs. unfold PyStr.repr, quoted. rewrite (plain_has_no_quote s Hs). simpl.
  f_equal. f_equal.
  induction s as [|c s IH]; [reflexivity|].
  destruct Hs as [Hc Hs]. simpl. rewrite (repr_char_plain c Hc), (IH Hs). reflexivity.
Qed.

Lemma prefix_refl (p : string) : prefix p p = true.
Proof.
  induction p as [|c p IH]; [reflexivity|]. simpl.
  destruct (ascii_dec c c); [exact IH|contradiction].
Qed.

Lemma contains_refl (p : string) : PyStr.contains p p = true.
Proof.
  destruct p as [|c p]; [reflexivity|].
  change (prefix (String c p) (String c p) || PyStr.contains (String c p) p = true).
  now rewrite prefix_refl.
Qed.

(** A part is found in the joined text. *)
Lemma contains_join (sep p : string) (parts : list string) :
  In p parts -> PyStr.contains p (PyStr.join sep parts) = true.
Proof.
  induction parts as [|a rest IH]; [intros []|].
  destruct rest as [|b rest].
  - intros [->|[]]. apply contains_refl.
  - intros [->|Hin].
    + change (PyStr.contains p (p ++ sep ++ PyStr.join sep (b :: rest))%string = true).
      apply contains_app_l, contains_refl.
    + change (PyStr.contains p (a ++ sep ++ PyStr.join sep (b :: rest))%string = true).
      apply contains_app_r, contains_app_r, IH, Hin.
Qed.

(** On ASCII text the lowering of Latin-1 is the lowering of ASCII. *)
Lemma lower_latin1_ascii (s : string) :
  PyStr.ascii_only s -> Double.lower_latin1 s = PyStr.lower s.
Proof.
  unfold Double.lower_latin1. induction s as [|c s IH]; [reflexivity|].
  intros [Hc Hs]. cbn [Double.lower_latin1_from PyStr.lower]. cbv zeta.
  cbn [andb]. destruct (Nat.eqb_spec (nat_of_ascii c) 195) as [Heq|_]; [lia|].
  now rewrite (IH Hs).
Qed.

(** ** The class: worksheets by name *)

Section ByName.

Context {R client workbook response cell : Type}.
Variable api : Gspread R client workbook response cell.
Variable self : GSPREAD client workbook.

(** An activation of [gspread_function] is seen in the trace. *)
Lemma gspread_function_trace {T} (f : M R T) (r : R) :
  exists t, snd (gspread_function f r) = Enter :: t.
Proof.
  unfold gspread_function. destruct (retry_loop f 0 r) as [[x r1] t]. simpl. eauto.
Qed.

(** [get_sheet_by_name] once the worksheets are listed. *)
Lemma get_sheet_by_name_run (sheet_name : string) (r r1 : R)
    (wss : list Worksheet) (t1 : trace) :
  gspread_function (call "sh.worksheets" (sh_worksheets api (sh self))) r
    = (Ok wss, r1, t1) ->
  get_sheet_by_name api self sheet_name r =
    if negb (PyDict.mem (str_lower api sheet_name) (lowered_names (str_lower api) wss)) then
      (Raise (ValueError (name_not_found api (lowered_names (str_lower api) wss))), r1, t1)
    else
      match PyDict.get (lowered_names (str_lower api) wss) (str_lower api sheet_name) with
      | Some sheet_id =>
          let '(x, r2, t2) := get_sheet_by_id api self sheet_id r1 in (x, r2, t1 ++ t2)
      | None =>
          (Raise (OtherError "KeyError" (str_repr api (str_lower api sheet_name))), r1, t1)
      end.
Proof.
  intros Hws. unfold get_sheet_by_name, get_worksheet_dict, bind. rewrite Hws.
  unfold ret. fold (lowered_names (str_lower api) wss). rewrite !app_nil_r.
  destruct (PyDict.mem (str_lower api sheet_name) (lowered_names (str_lower api) wss));
    simpl.
  - destruct (PyDict.get (lowered_names (str_lower api) wss) (str_lower api sheet_name))
      as [i|].
    + destruct (get_sheet_by_id api self i r1) as [[x r2] t2]. reflexivity.
    + unfold raise. now rewrite app_nil_r.
  - unfold raise. now rewrite app_nil_r.
Qed.

(** C8.  With the worksheets [wss] listed by the service, the lookup of
    [sheet_name] compares lowered names, whatever text the names hold.

    - The valid names are the lowered titles, each once.
    - The run ends in the [ValueError] whose message is "Worksheet name
      must be one of [...]" with the valid names printed by [repr] and
      separated by ", ", nothing being done after the listing, exactly when
      no title, lowered, is the lowered name.
    - Otherwise the run goes on to fetch the worksheet by the id of a
      worksheet whose lowered title is the lowered name; that is the id of
      any given such worksheet, unless another worksheet with the same
      lowered title has another id.  In general the id is the one the
      dictionary of titles to ids ([get_worksheet_dict]) gives the last of
      its titles whose lowering is the lowered name.
    - On names and titles of ASCII text, where [str.lower] moves 'A'..'Z' to
      'a'..'z', the lowered title is the lowered name exactly when title and
      name are equal up to case.
    - A valid name of printable ASCII text without quote or backslash,
      which [repr] puts between single quotes, stands so in the message. *)
Theorem get_sheet_by_name_ignores_case (sheet_name : string) (r r1 : R)
    (wss : list Worksheet) (t1 : trace) :
  gspread_function (call "sh.worksheets" (sh_worksheets api (sh self))) r
    = (Ok wss, r1, t1) ->
  let lower := str_lower api in
  let valid := PyDict.keys (lowered_names lower wss) in
  let message :=
    ("Worksheet name must be one of ["
       ++ PyStr.join ", " (map (str_repr api) valid) ++ "]")%string in
  let fetched sheet_id :=
    get_sheet_by_name api self sheet_name r
      = (let '(x, r2, t2) := get_sheet_by_id api self sheet_id r1 in (x, r2, t1 ++ t2)) in
  let found ws := fetched (ws_id ws) in
  (NoDup valid
   /\ forall k, In k valid <-> exists ws, In ws wss /\ k = lower (ws_title ws))
  /\ (get_sheet_by_name api self sheet_name r = (Raise (ValueError message), r1, t1)
      <-> forall ws, In ws wss -> ~ matches_under lower sheet_name ws)
  /\ ((exists ws, In ws wss /\ matches_under lower sheet_name ws) ->
      exists ws, In ws wss /\ matches_under lower sheet_name ws /\ found ws)
  /\ (forall ws,
        In ws wss -> matches_under lower sheet_name ws ->
        (forall ws', In ws' wss -> matches_under lower sheet_name ws' ->
                     ws_id ws' = ws_id ws) ->
        found ws)
  /\ (forall pre title sheet_id post,
        PyDict.items (PyDict.comprehension ws_title ws_id wss)
          = pre ++ (title, sheet_id) :: post ->
        lower title = lower sheet_name ->
        (forall kv, In kv post -> lower (fst kv) <> lower sheet_name) ->
        fetched sheet_id)
  /\ ((forall s, PyStr.ascii_only s -> lower s = PyStr.lower s) ->
      forall ws,
        PyStr.ascii_only sheet_name -> PyStr.ascii_only (ws_title ws) ->
        (matches_under lower sheet_name ws
         <-> equal_up_to_case (ws_title ws) sheet_name = true))
  /\ ((forall s, PyStr.ascii_only s -> str_repr api s = PyStr.repr s) ->
      forall k, In k valid -> plain k -> PyStr.contains (quoted k) message = true).
Proof.
  intros Hws lower valid message fetched found.
  pose proof (get_sheet_by_name_run sheet_name r r1 wss t1 Hws) as Hrun.
  fold lower in Hrun.
  assert (Hmessage : name_not_found api (lowered_names lower wss) = message)
    by reflexivity.
  assert (Hmem : PyDict.mem (lower sheet_name) (lowered_names lower wss) = true
                 <-> exists ws, In ws wss /\ matches_under lower sheet_name ws).
  { rewrite mem_keys, lowered_names_keys. unfold matches_under.
    split; intros [ws [Hin Heq]]; exists ws; auto. }
  assert (Hfound : (exists ws, In ws wss /\ matches_under lower sheet_name ws) ->
                   exists ws, In ws wss /\ matches_under lower sheet_name ws /\ found ws).
  { intros Hex. apply Hmem in Hex. unfold found, fetched. rewrite Hrun, Hex. simpl.
    unfold PyDict.mem in Hex.
    destruct (PyDict.get (lowered_names lower wss) (lower sheet_name)) as [i|] eqn:Hget;
      [|discriminate].
    apply lowered_names_get in Hget as [ws [Hin [Heq <-]]].
    exists ws. auto. }
  conjuncts.
  - apply keys_fold_nodup. constructor.
  - apply lowered_names_keys.
  - split.
    + intros Hraise ws Hin Hm.
      destruct (Hfound (ex_intro _ ws (conj Hin Hm))) as [ws' [_ [_ Hf]]].
      unfold found, fetched in Hf. rewrite Hraise in Hf.
      destruct (gspread_function_trace
                  (call "sh.get_worksheet_by_id"
                     (sh_get_worksheet_by_id api (sh self) (ws_id ws'))) r1) as [t Ht].
      unfold get_sheet_by_id in Hf.
      destruct (gspread_function _ r1) as [[x r2] t2]. simpl in Ht. subst t2.
      injection Hf as _ _ Hf. rewrite <- (app_nil_r t1) in Hf at 1.
      apply app_inv_head in Hf. discriminate.
    + intros Hnone. rewrite Hrun, Hmessage.
      assert (Hm : PyDict.mem (lower sheet_name) (lowered_names lower wss) = false).
      { apply not_true_is_false. intros Ht.
        apply Hmem in Ht as [ws [Hin Hmatch]]. exact (Hnone ws Hin Hmatch). }
      rewrite Hm. reflexivity.
  - exact Hfound.
  - intros ws Hin Hmatch Hsame.
    destruct (Hfound (ex_intro _ ws (conj Hin Hmatch))) as [ws' [Hin' [Hmatch' Hf]]].
    unfold found in *. rewrite <- (Hsame ws' Hin' Hmatch'). exact Hf.
  - intros pre title sheet_id post Hsplit Htitle Hlast.
    assert (Hget : PyDict.get (lowered_names lower wss) (lower sheet_name)
                   = Some sheet_id).
    { unfold lowered_names. rewrite Hsplit, <- Htitle.
      apply (comprehension_last_wins (fun kv => lower (fst kv)) snd pre (title, sheet_id)).
      intros kv Hin. cbn [fst]. rewrite Htitle. now apply Hlast. }
    unfold fetched. rewrite Hrun. unfold PyDict.mem. rewrite Hget. reflexivity.
  - intros Hpin ws Hname Htitle. unfold matches_under.
    rewrite (Hpin _ Hname), (Hpin _ Htitle). apply lower_equal_up_to_case.
  - intros Hpin k Hin Hplain. unfold message.
    apply contains_app_r, contains_app_l, contains_join.
    rewrite <- (repr_plain k Hplain), <- (Hpin k (plain_ascii_only k Hplain)).
    apply in_map, Hin.
Qed.

End ByName.

(** Scenario: the worksheets are "sheet1" (id 11) and "Sheet2" (id 22);
    "Sheet1" resolves to the id of "sheet1". *)
Example lookup_sheet1 :
  get_sheet_by_name (Double.service Double.opens Double.two_sheets)
    {| self_gc := "instance"; sh := "global/Budget" |} "Sheet1" 0
  = (Ok (Double.sheet "sheet1" 11), 2,
     [Enter; Invoke "sh.worksheets"; Leave;
      Enter; Invoke "sh.get_worksheet_by_id"; Leave]).
Proof. reflexivity. Qed.

(** Scenario: "Missing" is not a worksheet; the error lists the names. *)
Example lookup_missing :
  get_sheet_by_name (Double.service Double.opens Double.two_sheets)
    {| self_gc := "instance"; sh := "global/Budget" |} "Missing" 0
  = (Raise (ValueError "Worksheet name must be one of ['sheet1', 'sheet2']"), 1,
     [Enter; Invoke "sh.worksheets"; Leave]).
Proof. reflexivity. Qed.

(** Two titles that differ in case only: the dictionary keeps one key and
    the id of the later worksheet. *)
Example lookup_with_clashing_titles :
  lowered_names PyStr.lower [Double.sheet "Sheet1" 11; Double.sheet "sheet1" 22]
  = [("sheet1", 22%Z)].
Proof. reflexivity. Qed.

(** A title with an accented capital: where [str.lower] lowers it, the
    name in small letters resolves to the worksheet. *)
Example lookup_accented :
  get_sheet_by_name
    (Double.speaking Double.lower_latin1 [Double.sheet Double.ecole_capitals 7])
    {| self_gc := "instance"; sh := "global/Budget" |} Double.ecole_small 0
  = (Ok (Double.sheet Double.ecole_capitals 7), 2,
     [Enter; Invoke "sh.worksheets"; Leave;
      Enter; Invoke "sh.get_worksheet_by_id"; Leave]).
Proof. reflexivity. Qed.

(** The two lookup scenarios, from the theorem: "Sheet1" is "sheet1" up to
    case and no other title is, so the worksheet is fetched by the id 11;
    "Missing" is no title up to case, and the error lists 'sheet1' and
    'sheet2'.  And, where [str.lower] lowers the accented letters of
    Latin-1, the accented name in small letters resolves to the worksheet
    titled in capitals. *)
Lemma get_sheet_by_name_ignores_case_witness :
  gspread_function
    (call "sh.worksheets"
       (sh_worksheets (Double.service Double.opens Double.two_sheets) "global/Budget")) 0
    = (Ok Double.two_sheets, 1, [Enter; Invoke "sh.worksheets"; Leave])
  /\ get_sheet_by_name (Double.service Double.opens Double.two_sheets)
       {| self_gc := "instance"; sh := "global/Budget" |} "Sheet1" 0
     = (Ok (Double.sheet "sheet1" 11), 2,
        [Enter; Invoke "sh.worksheets"; Leave;
         Enter; Invoke "sh.get_worksheet_by_id"; Leave])
  /\ get_sheet_by_name (Double.service Double.opens Double.two_sheets)
       {| self_gc := "instance"; sh := "global/Budget" |} "Missing" 0
     = (Raise (ValueError "Worksheet name must be one of ['sheet1', 'sheet2']"), 1,
        [Enter; Invoke "sh.worksheets"; Leave])
  /\ (matches_under PyStr.lower "Sheet1" (Double.sheet "sheet1" 11)
      <-> equal_up_to_case "sheet1" "Sheet1" = true)
  /\ PyStr.contains "'sheet2'" "Worksheet name must be one of ['sheet1', 'sheet2']" = true
  /\ get_sheet_by_name
       (Double.speaking Double.lower_latin1 [Double.sheet Double.ecole_capitals 7])
       {| self_gc := "instance"; sh := "global/Budget" |} Double.ecole_small 0
     = (Ok (Double.sheet Double.ecole_capitals 7), 2,
        [Enter; Invoke "sh.worksheets"; Leave;
         Enter; Invoke "sh.get_worksheet_by_id"; Leave])
  /\ (matches_under Double.lower_latin1 "SHEET2" (Double.sheet "Sheet2" 22)
      <-> equal_up_to_case "Sheet2" "SHEET2" = true).
Proof.
  pose proof (get_sheet_by_name_ignores_case
                (Double.speaking Double.lower_latin1
                   [Double.sheet Double.ecole_capitals 7])
                {| self_gc := "instance"; sh := "global/Budget" |}
                Double.ecole_small 0 1 [Double.sheet Double.ecole_capitals 7]
                [Enter; Invoke "sh.worksheets"; Leave] eq_refl) as Hecole.
  pose proof (get_sheet_by_name_ignores_case
                (Double.speaking Double.lower_latin1 Double.two_sheets)
                {| self_gc := "instance"; sh := "global/Budget" |}
                "SHEET2" 0 1 Double.two_sheets
                [Enter; Invoke "sh.worksheets"; Leave] eq_refl) as Hlatin.
  cbv zeta in Hecole, Hlatin.
  destruct Hecole as [_ [_ [_ [Haccented _]]]].
  destruct Hlatin as [_ [_ [_ [_ [_ [Hpinned _]]]]]].
  pose proof (get_sheet_by_name_ignores_case
                (Double.service Double.opens Double.two_sheets)
                {| self_gc := "instance"; sh := "global/Budget" |}
                "Sheet1" 0 1 Double.two_sheets
                [Enter; Invoke "sh.worksheets"; Leave] eq_refl) as Hsheet1.
  pose proof (get_sheet_by_name_ignores_case
                (Double.service Double.opens Double.two_sheets)
                {| self_gc := "instance"; sh := "global/Budget" |}
                "Missing" 0 1 Double.two_sheets
                [Enter; Invoke "sh.worksheets"; Leave] eq_refl) as Hmissing.
  cbv zeta in Hsheet1, Hmissing.
  destruct Hsheet1 as [_ [_ [_ [Hfound [_ [Hcase _]]]]]].
  destruct Hmissing as [_ [[_ Hraise] [_ [_ [_ [_ Hlisted]]]]]].
  conjuncts.
  - reflexivity.
  - apply (Hfound (Double.sheet "sheet1" 11)).
    + left. reflexivity.
    + reflexivity.
    + intros ws' [<-|[<-|[]]] Hmatch; [reflexivity|].
      vm_compute in Hmatch. discriminate Hmatch.
  - apply Hraise. intros ws [<-|[<-|[]]] Hmatch; vm_compute in Hmatch; discriminate Hmatch.
  - apply (Hcase (fun s _ => eq_refl) (Double.sheet "sheet1" 11)); vm_compute; intuition lia.
  - apply (Hlisted (fun s _ => eq_refl) "sheet2").
    + right. left. reflexivity.
    + vm_compute. intuition (try lia; try discriminate).
  - apply (Haccented (Double.sheet Double.ecole_capitals 7)).
    + left. reflexivity.
    + reflexivity.
    + intros ws' [<-|[]] _. reflexivity.
  - apply (Hpinned lower_latin1_ascii (Double.sheet "Sheet2" 22));
      vm_compute; intuition lia.
Defined.

(** ** The class: what goes through the wrapper *)

Section Wrapped.

Context {R : Type}.

(** The events of a retry loop over an operation. *)
Lemma retry_loop_events {T} name (op : remote R T) n :
  forall counter r,
    counter_threshold - counter = n ->
    Forall (loop_event name) (snd (retry_loop (call name op) counter r)).
Proof.
  induction n as [|m IH]; intros counter r Hn; rewrite retry_loop_eq.
  - destruct (Nat.ltb_spec counter counter_threshold) as [Hlt|Hge]; [lia|].
    unfold call. destruct (op r) as [x r1]. simpl.
    repeat constructor.
  - destruct (Nat.ltb_spec counter counter_threshold) as [Hlt|Hge]; [|lia].
    rewrite attempt_call.
    assert (Hrec : Forall (loop_event name)
                     (snd (retry_loop (call name op) (counter + 1) (snd (op r)))))
      by (apply IH; lia).
    destruct (fst (op r)) as [v|e]; [simpl; repeat constructor|].
    destruct (classify e) as [[]|]; simpl;
      try (destruct (retry_loop (call name op) (counter + 1) (snd (op r)))
             as [[y r2] t2]; simpl in *);
      repeat constructor; assumption.
Qed.

Lemma wrapped_calls_app excluded t u :
  wrapped_calls excluded t -> wrapped_calls excluded u -> wrapped_calls excluded (t ++ u).
Proof.
  induction 1 as [|name t rest Hne Hev _ IH]; intros Hu; [exact Hu|].
  simpl. rewrite <- app_assoc. simpl. econstructor; eauto.
Qed.

Lemma tidy_ret {T} (v : T) : tidy (ret (R := R) v).
Proof. intros r. constructor. Qed.

Lemma tidy_raise {T} (e : exn) : tidy (raise (R := R) (T := T) e).
Proof. intros r. constructor. Qed.

Lemma tidy_bind {T U} (m : M R T) (k : T -> M R U) :
  tidy m -> (forall v, tidy (k v)) -> tidy (bind m k).
Proof.
  intros Hm Hk r. unfold bind. specialize (Hm r).
  destruct (m r) as [[[v|e] r1] t1]; simpl in *; [|exact Hm].
  specialize (Hk v r1). destruct (k v r1) as [[y r2] t2]. simpl in *.
  now apply wrapped_calls_app.
Qed.

Lemma tidy_call {T} name (op : remote R T) :
  name <> conversion -> tidy (gspread_function (call name op)).
Proof.
  intros Hne r. unfold gspread_function.
  pose proof (retry_loop_events name op (counter_threshold - 0) 0 r eq_refl) as Hev.
  destruct (retry_loop (call name op) 0 r) as [[x r1] t]. simpl in *.
  change (Enter :: t ++ [Leave]) with (Enter :: t ++ Leave :: []).
  apply (wrapped_cons _ name); [exact Hne|exact Hev|constructor].
Qed.

(** The conversion always succeeds at its first invocation. *)
Lemma conversion_run {T} (v : T) (r : R) :
  gspread_function (call conversion (fun w => (Ok v, w))) r = (Ok v, r, conversion_block).
Proof.
  unfold gspread_function. rewrite retry_loop_eq. reflexivity.
Qed.

Lemma converts_bind {T U} (m : M R T) (k : T -> M R U) :
  tidy m ->
  (forall v r, converts_at_most_once (snd (k v r))) ->
  forall r, converts_at_most_once (snd (bind m k r)).
Proof.
  intros Hm Hk r. unfold bind. specialize (Hm r).
  destruct (m r) as [[[v|e] r1] t1]; simpl in *.
  - specialize (Hk v r1). destruct (k v r1) as [[y r2] t2]. simpl in *.
    destruct Hk as [pre [post [Hpre [Hpost [->| ->]]]]].
    + exists (t1 ++ pre), []. split; [now apply wrapped_calls_app|].
      split; [constructor|now left].
    + exists (t1 ++ pre), post. split; [now apply wrapped_calls_app|].
      split; [exact Hpost|]. right. now rewrite <- app_assoc.
  - exists t1, []. split; [exact Hm|]. split; [constructor|now left].
Qed.

Lemma converts_here {T U} (v : T) (k : T -> M R U) :
  (forall x, tidy (k x)) ->
  forall r,
    converts_at_most_once
      (snd (bind (gspread_function (call conversion (fun w => (Ok v, w)))) k r)).
Proof.
  intros Hk r. unfold bind. rewrite conversion_run.
  specialize (Hk v r). destruct (k v r) as [[y r2] t2]. simpl in *.
  exists [], t2. split; [constructor|]. split; [exact Hk|]. now right.
Qed.

Lemma converts_after_bind {T U V} (m : M R T) (k : T -> M R U) (b : T -> M R V) :
  (forall v, converts_after (k v) (b v)) -> converts_after (bind m k) (bind m b).
Proof.
  intros Hk r. unfold bind.
  destruct (m r) as [[[v|e] r1] t1]; [|reflexivity].
  specialize (Hk v r1).
  destruct (b v r1) as [[[x|e] r0] t0]; destruct (k v r1) as [[y r2] t2].
  - destruct Hk as [post [Ht Hpost]]. simpl in Ht. subst t2.
    exists post. split; [simpl; now rewrite app_assoc|exact Hpost].
  - now injection Hk as -> -> ->.
Qed.

Lemma converts_after_here {T U V} (v : T) (k : T -> M R U) (x : V) :
  (forall y, tidy (k y)) ->
  converts_after (bind (gspread_function (call conversion (fun w => (Ok v, w)))) k)
    (ret x).
Proof.
  intros Hk r. unfold ret, bind. rewrite conversion_run.
  specialize (Hk v r). destruct (k v r) as [[y r2] t2]. simpl in *.
  exists t2. split; [reflexivity|exact Hk].
Qed.

(** Where the invocations of a tidy trace sit. *)
Lemma invoke_depths_loop_app name t d rest :
  Forall (loop_event name) t ->
  invoke_depths d (t ++ rest) = invoke_depths d t ++ invoke_depths d rest.
Proof.
  induction 1 as [|ev t Hev _ IH]; [reflexivity|].
  destruct ev; simpl in *; try contradiction; now rewrite ?IH.
Qed.

Lemma invoke_depths_wrapped_app excluded t d rest :
  wrapped_calls excluded t ->
  invoke_depths d (t ++ rest) = invoke_depths d t ++ invoke_depths d rest.
Proof.
  induction 1 as [|name t rest' Hne Hev _ IH]; [reflexivity|].
  cbn [app invoke_depths]. rewrite <- app_assoc.
  rewrite !(invoke_depths_loop_app name t (S d)) by exact Hev.
  cbn [app invoke_depths Nat.pred]. now rewrite IH, app_assoc.
Qed.

Lemma invoke_depths_loop name t d rest p :
  Forall (loop_event name) t ->
  In p (invoke_depths d (t ++ rest)) -> p = (name, d) \/ In p (invoke_depths d rest).
Proof.
  induction 1 as [|ev t Hev _ IH]; simpl; [auto|].
  destruct ev; simpl in Hev; try contradiction; auto.
  subst. intros [<-|H]; auto.
Qed.

Lemma invoke_depths_wrapped excluded t d rest p :
  wrapped_calls excluded t ->
  In p (invoke_depths d (t ++ rest)) ->
  (fst p <> excluded /\ snd p = S d) \/ In p (invoke_depths d rest).
Proof.
  induction 1 as [|name t rest' Hne Hev _ IH]; simpl; [auto|].
  rewrite <- app_assoc. intros H.
  apply (invoke_depths_loop name) in H as [->|H]; [auto| |exact Hev].
  simpl in H. auto.
Qed.

Lemma invocations_loop name excluded t :
  name <> excluded -> Forall (loop_event name) t -> invocations excluded t = 0.
Proof.
  intros Hne. unfold invocations. induction 1 as [|ev t Hev _ IH]; [reflexivity|].
  simpl. destruct ev; simpl in *; try contradiction; try exact IH.
  subst. destruct (String.eqb_spec name excluded); [contradiction|exact IH].
Qed.

Lemma invocations_wrapped excluded t :
  wrapped_calls excluded t -> invocations excluded t = 0.
Proof.
  induction 1 as [|name t rest Hne Hev _ IH]; [reflexivity|].
  change (Enter :: t ++ Leave :: rest) with ([Enter] ++ t ++ [Leave] ++ rest).
  rewrite !invocations_app, (invocations_loop name excluded t Hne Hev), IH. reflexivity.
Qed.

(** What [converts_at_most_once] says about the conversion. *)
Lemma converts_at_most_once_spec t :
  converts_at_most_once t ->
  (forall d, In (conversion, d) (invoke_depths 0 t) -> d = 1)
  /\ invocations conversion t <= 1
  /\ (invocations conversion t = 1 ->
      exists pre post,
        t = pre ++ conversion_block ++ post
        /\ invocations conversion pre = 0 /\ invocations conversion post = 0).
Proof.
  intros [pre [post [Hpre [Hpost [->| ->]]]]]; conjuncts.
  - intros d Hin. rewrite <- (app_nil_r pre) in Hin.
    apply (invoke_depths_wrapped conversion) in Hin as [[Hne _]|[]]; [|exact Hpre].
    now destruct Hne.
  - rewrite (invocations_wrapped _ _ Hpre). lia.
  - rewrite (invocations_wrapped _ _ Hpre). discriminate.
  - intros d Hin.
    apply (invoke_depths_wrapped conversion) in Hin as [[Hne _]|Hin]; [now destruct Hne| |exact Hpre].
    simpl in Hin. destruct Hin as [[= <-]|Hin]; [reflexivity|].
    rewrite <- (app_nil_r post) in Hin.
    apply (invoke_depths_wrapped conversion) in Hin as [[Hne _]|[]]; [|exact Hpost].
    now destruct Hne.
  - rewrite !invocations_app, (invocations_wrapped _ _ Hpre),
      (invocations_wrapped _ _ Hpost). unfold conversion_block, invocations. simpl. lia.
  - intros _. exists pre, post.
    rewrite (invocations_wrapped _ _ Hpre), (invocations_wrapped _ _ Hpost). auto.
Qed.

End Wrapped.

Create HintDb tidy.
#[export] Hint Resolve tidy_ret tidy_raise tidy_bind : tidy.
#[export] Hint Extern 1 (tidy (gspread_function (call _ _))) =>
  apply tidy_call; discriminate : tidy.

Section Replace.

Context {R client workbook response cell : Type}.
Variable api : Gspread R client workbook response cell.
Variable self : GSPREAD client workbook.

Lemma tidy_get_sheet_by_id (sheet_id : Z) : tidy (get_sheet_by_id api self sheet_id).
Proof. unfold get_sheet_by_id. auto with tidy. Qed.

Lemma tidy_get_sheet_by_name (sheet_name : string) :
  tidy (get_sheet_by_name api self sheet_name).
Proof.
  unfold get_sheet_by_name, get_worksheet_dict.
  apply tidy_bind; [auto with tidy|]. intros d.
  destruct (negb _); [auto with tidy|].
  destruct (PyDict.get _ _); [apply tidy_get_sheet_by_id|auto with tidy].
Qed.

Lemma tidy_before_conversion (worksheet_name : string) :
  tidy (before_conversion api self worksheet_name).
Proof.
  unfold before_conversion.
  apply tidy_bind; [apply tidy_get_sheet_by_name|intros worksheet].
  auto with tidy.
Qed.

(** The method goes on after [before_conversion] with the conversion. *)
Lemma converts_after_before (worksheet_name : string) (df : DataFrame cell)
    (extra_rows : Z) :
  converts_after (replace_worksheet_with_df api self worksheet_name df extra_rows)
    (before_conversion api self worksheet_name).
Proof.
  unfold replace_worksheet_with_df, before_conversion.
  apply converts_after_bind. intros worksheet.
  apply converts_after_bind. intros _.
  apply converts_after_bind. intros _.
  apply converts_after_here. intros data_rows.
  repeat (apply tidy_bind; [|intros ?]); auto with tidy.
  destruct (1 <? _); auto with tidy.
Qed.

(** C7, as the code has it.  In [replace_worksheet_with_df] the conversion
    [df.values.tolist()] is handed to [gspread_function] like the remote
    calls.  Being pure, it succeeds at its first invocation: an activation
    of the wrapper over it is the three events [conversion_block], one
    invocation between the entry and the exit, with no print, sleep or
    retry.  In every run of the method the conversion is invoked at most
    once and only under exactly one activation.  Whenever the three steps
    before it (the lookup of the worksheet, the clearing of the filter,
    the unfreezing) return, the method does go on with that activation:
    its trace is theirs, then [conversion_block], then calls of other
    operations, so the conversion is invoked exactly once, under one
    activation.  When one of the three steps raises, the method ends there
    and the conversion is not invoked. *)
Theorem conversion_goes_through_the_wrapper (worksheet_name : string)
    (df : DataFrame cell) (extra_rows : Z) (r : R) :
  let run := replace_worksheet_with_df api self worksheet_name df extra_rows r in
  let t := snd run in
  (forall w : R,
     gspread_function (call conversion (fun w => (Ok (values df), w))) w
       = (Ok (values df), w, conversion_block))
  /\ sleeps conversion_block = 0
  /\ invocations conversion t <= 1
  /\ (forall d, In (conversion, d) (invoke_depths 0 t) -> d = 1)
  /\ match before_conversion api self worksheet_name r with
     | (Ok worksheet, r0, t0) =>
         invocations conversion t0 = 0
         /\ exists post,
              t = t0 ++ conversion_block ++ post
              /\ invocations conversion post = 0
              /\ invocations conversion t = 1
              /\ In (conversion, 1) (invoke_depths 0 t)
     | (Raise e, r0, t0) =>
         run = (Raise e, r0, t0) /\ invocations conversion t = 0
     end.
Proof.
  intros run t.
  assert (Hall : converts_at_most_once t).
  { subst t run. revert r. unfold replace_worksheet_with_df.
    apply converts_bind; [apply tidy_get_sheet_by_name|]. intros worksheet.
    apply converts_bind; [auto with tidy|]. intros _.
    apply converts_bind; [auto with tidy|]. intros _.
    apply converts_here. intros data_rows.
    repeat (apply tidy_bind; [|intros ?]); auto with tidy.
    destruct (1 <? _); auto with tidy. }
  apply converts_at_most_once_spec in Hall as [Hdepth [Hmost _]].
  split; [intros w; apply conversion_run|]. split; [reflexivity|].
  split; [exact Hmost|]. split; [exact Hdepth|].
  pose proof (converts_after_before worksheet_name df extra_rows r) as Hnext.
  pose proof (tidy_before_conversion worksheet_name r) as Hbefore.
  fold run in Hnext.
  destruct (before_conversion api self worksheet_name r) as [[[worksheet|e] r0] t0];
    simpl in Hbefore.
  - destruct Hnext as [post [Ht Hpost]]. fold t in Ht.
    split; [now apply invocations_wrapped|].
    exists post. conjuncts.
    + exact Ht.
    + now apply invocations_wrapped.
    + rewrite Ht, !invocations_app, (invocations_wrapped _ _ Hbefore),
        (invocations_wrapped _ _ Hpost). reflexivity.
    + rewrite Ht, (invoke_depths_wrapped_app conversion) by exact Hbefore.
      apply in_or_app. right. left. reflexivity.
  - split; [exact Hnext|]. subst t. rewrite Hnext. now apply invocations_wrapped.
Qed.

End Replace.

(** C7 as the claim words it fails: in a run of [replace_worksheet_with_df]
    on a two-column table the conversion is invoked inside an activation
    of [gspread_function], between the call that unfreezes the sheet and the
    call that clears it, not outside of every activation. *)
Lemma conversion_is_inside_the_retry_boundary :
  let '(x, calls, t) :=
    replace_worksheet_with_df (Double.service Double.opens Double.two_sheets)
      {| self_gc := "instance"; sh := "global/Budget" |} "Sheet1" Double.table 0 0 in
  x = Ok (Double.sheet "sheet1" 11)
  /\ invoke_depths 0 t
     = [("sh.worksheets", 1); ("sh.get_worksheet_by_id", 1);
        ("worksheet.clear_basic_filter", 1); ("worksheet.freeze", 1);
        ("df.values.tolist", 1);
        ("worksheet.clear", 1); ("worksheet.update", 1); ("worksheet.format", 1);
        ("worksheet.freeze", 1)]
  /\ ~ In ("df.values.tolist", 0) (invoke_depths 0 t)
  /\ firstn 3 (skipn 12 t) = [Enter; Invoke "df.values.tolist"; Leave].
Proof.
  vm_compute. conjuncts; try reflexivity.
  intros H. repeat (destruct H as [H|H]; [discriminate H|]). exact H.
Qed.

(** ** The wrapper over any operation *)

Section Settles.

Context {R T : Type}.
Variable name : string.
Variable op : remote R T.

Lemma transient_dec (x : result T) : {transient x} + {~ transient x}.
Proof.
  destruct x as [v|e]; simpl; [right; tauto|].
  destruct (classify e) as [[]|]; auto.
Qed.

(** A pass over an operation that does not fail transiently leaves the
    function with what the operation returned or raised; at most the
    traceback is printed. *)
Lemma attempt_settled counter r :
  ~ transient (fst (op r)) ->
  exists t, attempt (call name op) counter r = (Exit (fst (op r)), snd (op r), Invoke name :: t)
            /\ sleeps t = 0 /\ invocations name t = 0.
Proof.
  intros Hnt. rewrite attempt_call. unfold transient in Hnt.
  destruct (fst (op r)) as [v|e]; [exists []; auto|].
  destruct (classify e) as [[]|]; try (exfalso; apply Hnt; exact I);
    eexists; split; try reflexivity; split; reflexivity.
Qed.

(** Among the first [n] invocations either all fail transiently or there is
    a first one that does not. *)
Lemma first_settled r n :
  (forall i, i < n -> transient (outcome_at op i r))
  \/ exists k, k < n /\ (forall i, i < k -> transient (outcome_at op i r))
               /\ ~ transient (outcome_at op k r).
Proof.
  induction n as [|n [Hall|[k [Hk [Hbefore Hat]]]]].
  - left. intros i Hi. lia.
  - destruct (transient_dec (outcome_at op n r)) as [Htr|Hnt].
    + left. intros i Hi. destruct (Nat.eq_dec i n) as [->|]; [exact Htr|apply Hall; lia].
    + right. exists n. auto.
  - right. exists k. split; [lia|auto].
Qed.

(** X1.  Whatever the operation does, [gspread_function] ends after [k + 1]
    invocations for some [k <= 9]: the first [k] invocations failed
    transiently and each was followed by one sleep of 30; the last one is
    the first that did not fail transiently, or the tenth; and what the last
    one returned or raised is the outcome. *)
Theorem gspread_function_settles (r : R) :
  exists k t,
    k <= counter_threshold
    /\ (forall i, i < k -> transient (outcome_at op i r))
    /\ (k < counter_threshold -> ~ transient (outcome_at op k r))
    /\ gspread_function (call name op) r
       = (outcome_at op k r, state_after op (S k) r, Enter :: t ++ [Leave])
    /\ invocations name t = S k
    /\ filter is_sleep t = repeat (Sleep 30) k.
Proof.
  destruct (first_settled r counter_threshold) as [Hall|[k [Hk [Hbefore Hat]]]].
  - exists counter_threshold,
      (backoff name op 0 r counter_threshold ++ [Print final_line; Invoke name]).
    conjuncts.
    + apply Nat.le_refl.
    + exact Hall.
    + intros H. lia.
    + apply run_exhausted, Hall.
    + rewrite invocations_app, invocations_backoff.
      unfold invocations. simpl. rewrite String.eqb_refl. reflexivity.
    + rewrite filter_app, filter_sleep_backoff. simpl. rewrite ?app_nil_r. reflexivity.
  - destruct (attempt_settled k (state_after op k r) Hat) as [t [Hatt [Hs Hi]]].
    exists k, (backoff name op 0 r k ++ Invoke name :: t). conjuncts.
    + lia.
    + exact Hbefore.
    + intros _. exact Hat.
    + apply (run_exit name op r k); [exact Hk|exact Hbefore|exact Hatt].
    + rewrite invocations_app, invocations_backoff.
      change (Invoke name :: t) with ([Invoke name] ++ t).
      rewrite invocations_app, invocations_self, Hi. lia.
    + rewrite filter_app, filter_sleep_backoff. simpl.
      unfold sleeps in Hs. apply length_zero_iff_nil in Hs. rewrite Hs. apply app_nil_r.
Qed.

End Settles.

(** ** Bounds for the wrapper over any computation *)

Section Bounds.

Context {R T : Type}.
Variable name : string.
Variable f : M R T.
Variables a b : nat.
Hypothesis f_bound : forall r, invocations name (snd (f r)) <= a /\ sleeps (snd (f r)) <= b.

Lemma attempt_bound counter r :
  invocations name (snd (attempt f counter r)) <= a
  /\ sleeps (snd (attempt f counter r)) <= b + 1.
Proof.
  unfold attempt. destruct (f_bound r) as [Hi Hs].
  destruct (f r) as [[[v|e] r1] t1]; simpl in *; [lia|].
  destruct e as [|e| |]; simpl; try lia.
  - rewrite invocations_app, sleeps_app. unfold invocations, sleeps in *. simpl. lia.
  - destruct (classify_api e); simpl;
      rewrite invocations_app, sleeps_app; unfold invocations, sleeps in *; simpl; lia.
Qed.

Lemma retry_loop_bound n :
  forall counter r,
    counter_threshold - counter = n ->
    invocations name (snd (retry_loop f counter r)) <= S n * a
    /\ sleeps (snd (retry_loop f counter r)) <= S n * b + n.
Proof.
  induction n as [|m IH]; intros counter r Hn; rewrite retry_loop_eq.
  - destruct (Nat.ltb_spec counter counter_threshold) as [Hlt|Hge]; [lia|].
    destruct (f_bound r) as [Hi Hs]. destruct (f r) as [[x r1] t1]. simpl in *.
    change (Print final_line :: t1) with ([Print final_line] ++ t1).
    rewrite invocations_app, sleeps_app. unfold invocations, sleeps in *. simpl. lia.
  - destruct (Nat.ltb_spec counter counter_threshold) as [Hlt|Hge]; [|lia].
    assert (Hm : counter_threshold - (counter + 1) = m) by lia. clear Hn.
    destruct (attempt_bound counter r) as [Hi Hs].
    destruct (attempt f counter r) as [[[x|] r1] t1]; simpl in Hi, Hs |- *; [nia|].
    destruct (IH (counter + 1) r1 Hm) as [Hi2 Hs2].
    destruct (retry_loop f (counter + 1) r1) as [[y r2] t2]. simpl in Hi2, Hs2 |- *.
    rewrite invocations_app, sleeps_app. nia.
Qed.

Lemma gspread_function_bound r :
  invocations name (snd (gspread_function f r)) <= 10 * a
  /\ sleeps (snd (gspread_function f r)) <= 10 * b + 9.
Proof.
  unfold gspread_function.
  destruct (retry_loop_bound counter_threshold 0 r eq_refl) as [Hi Hs].
  destruct (retry_loop f 0 r) as [[x r1] t]. simpl in *.
  change (Enter :: t ++ [Leave]) with ([Enter] ++ t ++ [Leave]).
  rewrite !invocations_app, !sleeps_app.
  unfold invocations, sleeps, counter_threshold in *. simpl. lia.
Qed.

End Bounds.

(** X2.  A computation that, from any world, invokes the operation [name]
    at most [a] times and sleeps at most [b] times: under [gspread_function]
    the operation is invoked at most [10 * a] times and at most
    [10 * b + 9] sleeps are made, whatever the computation returns or
    raises. *)
Theorem gspread_function_multiplies_by_ten {R T} (name : string) (f : M R T) (a b : nat) :
  (forall r, invocations name (snd (f r)) <= a /\ sleeps (snd (f r)) <= b) ->
  forall r,
    invocations name (snd (gspread_function f r)) <= 10 * a
    /\ sleeps (snd (gspread_function f r)) <= 10 * b + 9.
Proof. intros Hf r. exact (gspread_function_bound name f a b Hf r). Qed.

Lemma call_bound {R T} (name : string) (op : remote R T) (r : R) :
  invocations name (snd (call name op r)) <= 1 /\ sleeps (snd (call name op r)) <= 0.
Proof.
  unfold call. destruct (op r) as [x r1]. simpl.
  rewrite invocations_self. unfold sleeps. simpl. lia.
Qed.

Lemma gspread_function_multiplies_by_ten_witness :
  (forall r, invocations "gc.open"
               (snd (call "gc.open" (Double.gateway_down "global" "Budget") r)) <= 1
             /\ sleeps (snd (call "gc.open" (Double.gateway_down "global" "Budget") r)) <= 0)
  /\ invocations "gc.open"
       (snd (gspread_function (call "gc.open" (Double.gateway_down "global" "Budget")) 0))
     <= 10 * 1.
Proof.
  assert (H : forall r,
             invocations "gc.open"
               (snd (call "gc.open" (Double.gateway_down "global" "Budget") r)) <= 1
             /\ sleeps (snd (call "gc.open" (Double.gateway_down "global" "Budget") r)) <= 0).
  { intros r. split; vm_compute; lia. }
  split; [exact H|].
  exact (proj1 (gspread_function_multiplies_by_ten "gc.open" _ 1 0 H 0)).
Defined.

(** X3.  Whatever the service does, one [GSPREAD(...)] invokes [gc.open] at
    most 100 times and sleeps at most 99 times. *)
Theorem init_opens_at_most_a_hundred_times {R client workbook response cell}
    (service_account : remote R client)
    (api : Gspread R client workbook response cell) (gc : client)
    (workbook_name : string) (r : R) :
  let t := snd (__init__ service_account api gc workbook_name r) in
  invocations "gc.open" t <= 100 /\ sleeps t <= 99.
Proof.
  unfold __init__, bind, call.
  destruct (service_account r) as [[c|e] r0]; [|split; vm_compute; lia].
  assert (Hin : forall w,
             invocations "gc.open" (snd (open_workbook api gc c workbook_name w)) <= 10 * 1
             /\ sleeps (snd (open_workbook api gc c workbook_name w)) <= 10 * 0 + 9).
  { intros w. apply gspread_function_bound. intros w'. apply call_bound. }
  destruct (gspread_function_bound "gc.open" _ _ _ Hin r0) as [Hi Hs].
  destruct (gspread_function (open_workbook api gc c workbook_name) r0) as [[[s|e] r1] t1];
    simpl in *; rewrite ?app_nil_r; split;
    match goal with
    | |- invocations _ (?x :: ?l) <= _ =>
        change (x :: l) with ([x] ++ l); rewrite invocations_app;
        unfold invocations in *; simpl; lia
    | |- sleeps (?x :: ?l) <= _ =>
        change (x :: l) with ([x] ++ l); rewrite sleeps_app; unfold sleeps in *; simpl; lia
    end.
Qed.

(** ** The other transient classes *)

Lemma lower_app (s u : string) :
  PyStr.lower (s ++ u) = (PyStr.lower s ++ PyStr.lower u)%string.
Proof. induction s as [|c s IH]; simpl; [reflexivity|now rewrite IH]. Qed.

(** The lowered traceback holds the lowered message. *)
Lemma lowered_message_in_format_exc p e :
  PyStr.contains p (PyStr.lower (message e)) = true ->
  PyStr.contains p (PyStr.lower (format_exc e)) = true.
Proof.
  intros H. unfold format_exc. rewrite !lower_app.
  apply contains_app_r, contains_app_r, contains_app_l, H.
Qed.

Section OtherClasses.

Context {R T : Type}.
Variable name : string.
Variable op : remote R T.

(** A pass that falls through takes the loop to the next counter. *)
Lemma retry_loop_next (f : M R T) counter r r1 t :
  counter < counter_threshold ->
  attempt f counter r = (Next, r1, t) ->
  retry_loop f counter r
    = (let '(x, r2, t2) := retry_loop f (counter + 1) r1 in (x, r2, t ++ t2)).
Proof.
  intros Hlt Hatt. rewrite retry_loop_eq.
  destruct (Nat.ltb_spec counter counter_threshold) as [_|]; [|lia].
  rewrite Hatt. reflexivity.
Qed.

(** What the loop does with an API error of a transient class. *)
Lemma attempt_api_transient counter r a c :
  fst (op r) = Raise (APIError a) ->
  classify_api a = c -> c <> FATAL ->
  attempt (call name op) counter r
    = (Next, snd (op r), [Invoke name; Print (retry_line c counter); Sleep 30]).
Proof.
  intros Hout <- Hc. rewrite attempt_call, Hout. simpl.
  destruct (classify_api a); try reflexivity. now destruct Hc.
Qed.

(** X4.  An API error raised inside the loop that is not of the 502 class
    and whose message or stack trace contains "Quota exceeded" or "Read
    requests per minute per user" is classified TRANSIENT_RATE_LIMIT: the
    attempt number is printed on the "Rate limit hit." line, 30 is slept and
    the loop goes on. *)
Theorem rate_limit_is_retried (r : R) (counter : nat) (a : api_error) :
  counter < counter_threshold ->
  fst (op r) = Raise (APIError a) ->
  PyStr.contains "502" (message a) = false ->
  PyStr.contains "Server Error" (format_exc a) = false ->
  PyStr.contains "Quota exceeded" (message a) = true
  \/ PyStr.contains "Quota exceeded" (format_exc a) = true
  \/ PyStr.contains "Read requests per minute per user" (message a) = true
  \/ PyStr.contains "Read requests per minute per user" (format_exc a) = true ->
  let line := ("Rate limit hit. Retrying (" ++ PyStr.of_nat (counter + 1) ++ "/9)...")%string in
  classify_api a = TRANSIENT_RATE_LIMIT
  /\ retry_loop (call name op) counter r
     = (let '(x, r2, t2) := retry_loop (call name op) (counter + 1) (snd (op r)) in
        (x, r2, [Invoke name; Print line; Sleep 30] ++ t2)).
Proof.
  intros Hlt Hout H502 Hserver Hpat line.
  assert (Hc : classify_api a = TRANSIENT_RATE_LIMIT).
  { unfold classify_api. rewrite H502, Hserver. simpl.
    destruct Hpat as [H|[H|[H|H]]].
    - now rewrite (message_in_format_exc _ _ H).
    - now rewrite H.
    - now rewrite (message_in_format_exc _ _ H), orb_true_r.
    - now rewrite H, orb_true_r. }
  split; [exact Hc|].
  apply retry_loop_next; [exact Hlt|].
  apply (attempt_api_transient counter r a TRANSIENT_RATE_LIMIT Hout Hc). discriminate.
Qed.

(** X5.  An API error raised inside the loop that is of neither of the two
    earlier classes and whose message or traceback contains "the service is
    currently unavailable" in whatever letter case is classified
    TRANSIENT_UNAVAILABLE and retried after a sleep of 30. *)
Theorem unavailable_is_retried_in_any_case (r : R) (counter : nat) (a : api_error) :
  counter < counter_threshold ->
  fst (op r) = Raise (APIError a) ->
  PyStr.contains "502" (message a) = false ->
  PyStr.contains "Server Error" (format_exc a) = false ->
  PyStr.contains "Quota exceeded" (format_exc a) = false ->
  PyStr.contains "Read requests per minute per user" (format_exc a) = false ->
  PyStr.contains "the service is currently unavailable" (PyStr.lower (message a)) = true
  \/ PyStr.contains "the service is currently unavailable" (PyStr.lower (format_exc a))
     = true ->
  let line :=
    ("Service unavailable. Retrying (" ++ PyStr.of_nat (counter + 1) ++ "/9)...")%string in
  classify_api a = TRANSIENT_UNAVAILABLE
  /\ retry_loop (call name op) counter r
     = (let '(x, r2, t2) := retry_loop (call name op) (counter + 1) (snd (op r)) in
        (x, r2, [Invoke name; Print line; Sleep 30] ++ t2)).
Proof.
  intros Hlt Hout H502 Hserver Hquota Hread Hpat line.
  assert (Hc : classify_api a = TRANSIENT_UNAVAILABLE).
  { unfold classify_api. rewrite H502, Hserver, Hquota, Hread. simpl.
    destruct Hpat as [H|H].
    - now rewrite (lowered_message_in_format_exc _ _ H).
    - now rewrite H. }
  split; [exact Hc|].
  apply retry_loop_next; [exact Hlt|].
  apply (attempt_api_transient counter r a TRANSIENT_UNAVAILABLE Hout Hc). discriminate.
Qed.

End OtherClasses.

Lemma rate_limit_is_retried_witness :
  2 < counter_threshold
  /\ fst (Double.always (T := unit) (Raise (APIError Faults.quota_exceeded)) 2)
     = Raise (APIError Faults.quota_exceeded)
  /\ PyStr.contains "Quota exceeded" (message Faults.quota_exceeded) = true
  /\ classify_api Faults.quota_exceeded = TRANSIENT_RATE_LIMIT.
Proof.
  assert (Hlt : 2 < counter_threshold) by (unfold counter_threshold; lia).
  split; [exact Hlt|]. split; [reflexivity|]. split; [reflexivity|].
  exact (proj1 (rate_limit_is_retried "sheet.col_values"
                  (Double.always (T := unit) (Raise (APIError Faults.quota_exceeded))) 2 2
                  Faults.quota_exceeded Hlt eq_refl eq_refl eq_refl (or_introl eq_refl))).
Defined.

Lemma unavailable_is_retried_in_any_case_witness :
  0 < counter_threshold
  /\ PyStr.contains "the service is currently unavailable" (message Faults.unavailable)
     = false
  /\ PyStr.contains "the service is currently unavailable"
       (PyStr.lower (message Faults.unavailable)) = true
  /\ classify_api Faults.unavailable = TRANSIENT_UNAVAILABLE.
Proof.
  assert (Hlt : 0 < counter_threshold) by (unfold counter_threshold; lia).
  split; [exact Hlt|]. split; [reflexivity|]. split; [reflexivity|].
  exact (proj1 (unavailable_is_retried_in_any_case "sheet.col_values"
                  (Double.always (T := unit) (Raise (APIError Faults.unavailable))) 0 0
                  Faults.unavailable Hlt eq_refl eq_refl eq_refl eq_refl eq_refl
                  (or_introl eq_refl))).
Defined.

(** ** Column labels *)

(** The loop test and body of [_number_to_column], as the [while] reads. *)
Lemma number_to_column_loop_eq (n : Z) (result : string) :
  number_to_column_loop n result =
    if Z_gt_dec n 0 then
      number_to_column_loop ((n - 1) / 26)
        (String (ascii_of_nat (Z.to_nat (65 + (n - 1) mod 26))) result)
    else result.
Proof.
  etransitivity; [apply number_to_column_loop_equation_1|].
  destruct (Z_gt_dec n 0); reflexivity.
Qed.

(** The letter of the last digit is a capital. *)
Lemma digit_letter (n : Z) :
  nat_of_ascii (ascii_of_nat (Z.to_nat (65 + (n - 1) mod 26)))
    = Z.to_nat (65 + (n - 1) mod 26)
  /\ (0 <= (n - 1) mod 26 < 26)%Z.
Proof.
  assert (H : (0 <= (n - 1) mod 26 < 26)%Z) by (apply Z.mod_pos_bound; lia).
  split; [|exact H]. apply nat_ascii_embedding. lia.
Qed.

Lemma string_app_assoc (s t u : string) : ((s ++ t) ++ u = s ++ (t ++ u))%string.
Proof. induction s as [|c s IH]; simpl; [reflexivity|now rewrite IH]. Qed.

(** The loop only puts letters in front of what it was given. *)
Lemma number_to_column_loop_acc (m : nat) :
  forall n result,
    Z.to_nat n < m ->
    number_to_column_loop n result
      = (number_to_column_loop n EmptyString ++ result)%string.
Proof.
  induction m as [|m IH]; intros n result Hm; [lia|].
  rewrite (number_to_column_loop_eq n result), (number_to_column_loop_eq n EmptyString).
  destruct (Z_gt_dec n 0) as [Hpos|_]; [|reflexivity].
  assert (Hdiv : (0 <= (n - 1) / 26 < n)%Z).
  { split; [apply Z.div_pos; lia | apply Z.div_lt_upper_bound; lia]. }
  rewrite (IH _ (String _ result)) by lia.
  rewrite (IH _ (String _ EmptyString)) by lia.
  rewrite string_app_assoc. reflexivity.
Qed.

(** How a label grows: the label of [(n - 1) / 26] followed by the letter
    of [(n - 1) mod 26]. *)
Lemma number_to_column_step (n : Z) :
  (0 < n)%Z ->
  number_to_column_loop n EmptyString
    = (number_to_column_loop ((n - 1) / 26) EmptyString
       ++ String (ascii_of_nat (Z.to_nat (65 + (n - 1) mod 26))) EmptyString)%string.
Proof.
  intros Hpos. rewrite (number_to_column_loop_eq n).
  destruct (Z_gt_dec n 0) as [_|]; [|lia].
  apply (number_to_column_loop_acc (S (Z.to_nat n))).
  assert ((n - 1) / 26 < n)%Z by (apply Z.div_lt_upper_bound; lia). lia.
Qed.

Lemma number_to_column_nonpositive (n : Z) :
  (n <= 0)%Z -> number_to_column_loop n EmptyString = EmptyString.
Proof.
  intros Hn. rewrite number_to_column_loop_eq. destruct (Z_gt_dec n 0); [lia|reflexivity].
Qed.

Lemma all_capitals_app (s u : string) :
  all_capitals (s ++ u) <-> all_capitals s /\ all_capitals u.
Proof. induction s as [|c s IH]; simpl; [tauto|rewrite IH; tauto]. Qed.

Lemma column_value_app (s : string) (c : ascii) (acc : Z) :
  column_value (s ++ String c EmptyString) acc
    = (26 * column_value s acc + (Z.of_nat (nat_of_ascii c) - 64))%Z.
Proof. revert acc. induction s as [|d s IH]; intros acc; simpl; [reflexivity|apply IH]. Qed.

(** Induction over the labels, by the size of the number. *)
Lemma number_to_column_facts (m : nat) :
  forall n,
    Z.to_nat n < m ->
    let label := number_to_column_loop n EmptyString in
    all_capitals label
    /\ column_to_number label = Z.max n 0
    /\ (label = EmptyString <-> (n <= 0)%Z).
Proof.
  induction m as [|m IH]; intros n Hm label; [lia|].
  destruct (Z_gt_dec n 0) as [Hpos|Hle].
  - assert (Hdiv : (0 <= (n - 1) / 26 < n)%Z).
    { split; [apply Z.div_pos; lia | apply Z.div_lt_upper_bound; lia]. }
    destruct (IH ((n - 1) / 26)%Z ltac:(lia)) as [Hcap [Hval _]].
    destruct (digit_letter n) as [Hcode Hrange].
    unfold label. rewrite number_to_column_step by lia. conjuncts.
    + apply all_capitals_app. split; [exact Hcap|]. split; [|exact I].
      unfold is_capital. rewrite Hcode. lia.
    + unfold column_to_number in *. rewrite column_value_app, Hval, Hcode.
      rewrite Z2Nat.id by lia. pose proof (Z.div_mod (n - 1) 26 ltac:(lia)). lia.
    + split; [|lia]. intros H.
      destruct (number_to_column_loop ((n - 1) / 26) EmptyString); discriminate H.
  - unfold label. rewrite number_to_column_nonpositive by lia. conjuncts.
    + exact I.
    + unfold column_to_number. simpl. lia.
    + tauto.
Qed.

(** X6.  The label of a column number is made of capital letters only, and
    it is empty exactly when the number (taken one higher under
    [start_at_0]) is not positive. *)
Theorem number_to_column_capitals (n : Z) (start_at_0 : bool) :
  let label := _number_to_column n start_at_0 in
  all_capitals label
  /\ (label = EmptyString <-> ((if start_at_0 then n + 1 else n) <= 0)%Z).
Proof.
  intros label. unfold label, _number_to_column.
  destruct (number_to_column_facts (S (Z.to_nat (if start_at_0 then n + 1 else n))) _
              (Nat.lt_succ_diag_r _)) as [Hcap [_ Hempty]].
  split; assumption.
Qed.

(** X7.  Reading a label back gives the number: labels of different
    positive numbers differ.  Under [start_at_0] the label of index [i] is
    that of column [i + 1]. *)
Theorem number_to_column_round_trip (n m : Z) :
  (0 <= n)%Z -> (0 <= m)%Z ->
  column_to_number (_number_to_column n false) = n
  /\ column_to_number (_number_to_column (n - 1) true) = n
  /\ (_number_to_column n false = _number_to_column m false -> n = m).
Proof.
  intros Hn Hm.
  assert (Hback : forall k, (0 <= k)%Z ->
                    column_to_number (number_to_column_loop k EmptyString) = k).
  { intros k Hk.
    destruct (number_to_column_facts (S (Z.to_nat k)) k (Nat.lt_succ_diag_r _))
      as [_ [Hval _]].
    rewrite Hval. lia. }
  unfold _number_to_column. conjuncts.
  - apply Hback, Hn.
  - replace (n - 1 + 1)%Z with n by lia. apply Hback, Hn.
  - intros Heq. rewrite <- (Hback n Hn), <- (Hback m Hm), Heq. reflexivity.
Qed.

Lemma number_to_column_round_trip_witness :
  (0 <= 703)%Z /\ (0 <= 28)%Z
  /\ _number_to_column 703 false = "AAA"
  /\ column_to_number "AAA" = 703%Z.
Proof.
  assert (H1 : (0 <= 703)%Z) by lia. assert (H2 : (0 <= 28)%Z) by lia.
  split; [exact H1|]. split; [exact H2|]. split; [reflexivity|].
  exact (proj1 (number_to_column_round_trip 703 28 H1 H2)).
Defined.

(** X8.  For a positive number the label is the label of [(n - 1) / 26]
    followed by the letter number [(n - 1) mod 26] of the alphabet: one
    letter for 1 to 26, and a longer label above. *)
Theorem number_to_column_last_letter (n : Z) :
  (0 < n)%Z ->
  let last := ascii_of_nat (Z.to_nat (65 + (n - 1) mod 26)) in
  _number_to_column n false
    = (_number_to_column ((n - 1) / 26) false ++ String last EmptyString)%string
  /\ ((n <= 26)%Z <-> String.length (_number_to_column n false) = 1).
Proof.
  intros Hpos last. unfold _number_to_column.
  rewrite (number_to_column_step n Hpos). split; [reflexivity|].
  destruct (number_to_column_facts (S (Z.to_nat ((n - 1) / 26))) _ (Nat.lt_succ_diag_r _))
    as [_ [_ Hempty]].
  assert (Hlen : forall s c, String.length (s ++ String c EmptyString) = S (String.length s)).
  { intros s c. induction s as [|d s IH]; simpl; [reflexivity|now rewrite IH]. }
  rewrite Hlen. split.
  - intros Hle. assert (Hz : ((n - 1) / 26 <= 0)%Z).
    { rewrite Z.div_small by lia. lia. }
    apply Hempty in Hz. rewrite Hz. reflexivity.
  - intros H. injection H as H.
    destruct (number_to_column_loop ((n - 1) / 26) EmptyString) eqn:Hl; [|discriminate H].
    assert (Hz : ((n - 1) / 26 <= 0)%Z) by (apply Hempty; reflexivity).
    destruct (Z_le_gt_dec n 26) as [|Hgt]; [assumption|].
    assert (1 <= (n - 1) / 26)%Z by (apply Z.div_le_lower_bound; lia). lia.
Qed.

Lemma number_to_column_last_letter_witness :
  (0 < 27)%Z
  /\ _number_to_column 27 false = "AA"
  /\ _number_to_column 27 false
     = (_number_to_column 1 false ++ "A")%string.
Proof.
  assert (H : (0 < 27)%Z) by lia.
  split; [exact H|]. split; [reflexivity|].
  exact (proj1 (number_to_column_last_letter 27 H)).
Defined.

(** The examples of the docstring, and the ends of the alphabet. *)
Example number_to_column_examples :
  _number_to_column 1 false = "A" /\ _number_to_column 27 false = "AA"
  /\ _number_to_column 26 false = "Z" /\ _number_to_column 52 false = "AZ"
  /\ _number_to_column 0 true = "A" /\ _number_to_column 0 false = "".
Proof. repeat split. Qed.

(** ** Calls that go through one wrapper *)

Section Avoids.

Context {R : Type}.
Variable excluded : string.

Lemma avoids_ret {T} (v : T) : avoids excluded (ret (R := R) v).
Proof. intros r. constructor. Qed.

Lemma avoids_raise {T} (e : exn) : avoids excluded (raise (R := R) (T := T) e).
Proof. intros r. constructor. Qed.

Lemma avoids_lift {T} (x : result T) : avoids excluded (lift (R := R) x).
Proof. intros r. constructor. Qed.

(** Sequencing, the continuation being looked at only on the values the
    first computation can return. *)
Lemma avoids_bind_result {T U} (m : M R T) (k : T -> M R U) :
  avoids excluded m ->
  (forall v r r1 t, m r = (Ok v, r1, t) -> avoids excluded (k v)) ->
  avoids excluded (bind m k).
Proof.
  intros Hm Hk r. unfold bind. specialize (Hm r).
  destruct (m r) as [[[v|e] r1] t1] eqn:Hrun; simpl in *; [|exact Hm].
  specialize (Hk v r r1 t1 Hrun r1). destruct (k v r1) as [[y r2] t2]. simpl in *.
  now apply wrapped_calls_app.
Qed.

Lemma avoids_bind {T U} (m : M R T) (k : T -> M R U) :
  avoids excluded m -> (forall v, avoids excluded (k v)) -> avoids excluded (bind m k).
Proof. intros Hm Hk. apply avoids_bind_result; auto. Qed.

Lemma avoids_call {T} name (op : remote R T) :
  name <> excluded -> avoids excluded (gspread_function (call name op)).
Proof.
  intros Hne r. unfold gspread_function.
  pose proof (retry_loop_events name op (counter_threshold - 0) 0 r eq_refl) as Hev.
  destruct (retry_loop (call name op) 0 r) as [[x r1] t]. simpl in *.
  change (Enter :: t ++ [Leave]) with (Enter :: t ++ Leave :: []).
  apply (wrapped_cons _ name); [exact Hne|exact Hev|constructor].
Qed.

(** In a trace of wrapped calls every invocation is under one activation. *)
Lemma wrapped_calls_depth t p :
  wrapped_calls excluded t -> In p (invoke_depths 0 t) -> snd p = 1.
Proof.
  intros Hw Hin. rewrite <- (app_nil_r t) in Hin.
  apply (invoke_depths_wrapped excluded) in Hin as [[_ H]|[]]; [exact H|exact Hw].
Qed.

End Avoids.

Create HintDb avoids.
#[export] Hint Resolve avoids_ret avoids_raise avoids_lift avoids_bind : avoids.
#[export] Hint Extern 1 (avoids _ (gspread_function (call _ _))) =>
  apply avoids_call; discriminate : avoids.

Section Methods.

Context {R client workbook response cell : Type}.
Variable api : Gspread R client workbook response cell.
Variable self : GSPREAD client workbook.
Variable excluded : string.

Lemma avoids_get_sheet_by_name (sheet_name : string) :
  "sh.worksheets" <> excluded -> "sh.get_worksheet_by_id" <> excluded ->
  avoids excluded (get_sheet_by_name api self sheet_name).
Proof.
  intros H1 H2. unfold get_sheet_by_name, get_worksheet_dict.
  apply avoids_bind.
  - apply avoids_bind; [now apply avoids_call|intros; apply avoids_ret].
  - intros d. destruct (negb _); [apply avoids_raise|].
    destruct (PyDict.get _ _); [now apply avoids_call|apply avoids_raise].
Qed.

Lemma avoids_sheet_check (sheet : sheet_ref) :
  "sh.worksheets" <> excluded -> "sh.get_worksheet_by_id" <> excluded ->
  avoids excluded (_sheet_check api self sheet).
Proof.
  intros H1 H2. destruct sheet; simpl.
  - apply avoids_ret.
  - now apply avoids_get_sheet_by_name.
  - now apply avoids_call.
  - apply avoids_raise.
Qed.

End Methods.

(** X9.  In every method of the class other than [__init__], whatever the
    service does, each operation that is invoked is invoked under exactly
    one activation of [gspread_function]. *)
Theorem methods_wrap_each_call_once {R client workbook response cell}
    (api : Gspread R client workbook response cell) (self : GSPREAD client workbook)
    (gc : client) (name range : string) (sheet : sheet_ref) (sheet_id index i j : Z)
    (df : DataFrame cell) (vals : list (list cell)) (row : list cell) (r : R) :
  let once {T} (m : M R T) :=
    forall p, In p (invoke_depths 0 (snd (m r))) -> snd p = 1 in
  once (open_workbook api gc gc name)
  /\ once (get_worksheet_dict api self)
  /\ once (get_sheet_by_id api self sheet_id)
  /\ once (get_sheet_by_name api self name)
  /\ once (replace_worksheet_with_df api self name df i)
  /\ once (update_rows_by_range api self sheet range vals)
  /\ once (sheet_to_df api self sheet)
  /\ once (append_row_to_sheet api self sheet row)
  /\ once (get_sheet_url api self sheet)
  /\ once (get_column_values api self sheet index)
  /\ once (batch_clear api self sheet range)
  /\ once (clear_basic_filter api self sheet)
  /\ once (delete_rows api self sheet i j).
Proof.
  intros once.
  assert (Hby_name : forall n, avoids EmptyString (get_sheet_by_name api self n))
    by (intros n; apply avoids_get_sheet_by_name; discriminate).
  assert (Hcheck : avoids EmptyString (_sheet_check api self sheet))
    by (apply avoids_sheet_check; discriminate).
  assert (Hdepth : forall T (m : M R T), avoids EmptyString m -> once T m).
  { intros T m Hm p. apply (wrapped_calls_depth EmptyString), Hm. }
  conjuncts; apply Hdepth.
  - unfold open_workbook. auto with avoids.
  - unfold get_worksheet_dict. auto with avoids.
  - unfold get_sheet_by_id. auto with avoids.
  - apply Hby_name.
  - unfold replace_worksheet_with_df.
    apply avoids_bind; [apply Hby_name|intros ws].
    repeat (apply avoids_bind; [|intros ?]); auto with avoids.
    destruct (1 <? _); auto with avoids.
  - unfold update_rows_by_range. auto 6 with avoids.
  - unfold sheet_to_df. apply avoids_bind; [exact Hcheck|intros ws].
    apply avoids_bind; [auto with avoids|intros data].
    cbv zeta. auto with avoids.
  - unfold append_row_to_sheet. auto 6 with avoids.
  - unfold get_sheet_url. auto with avoids.
  - unfold get_column_values. auto with avoids.
  - unfold batch_clear. auto with avoids.
  - unfold clear_basic_filter. auto with avoids.
  - unfold delete_rows. auto with avoids.
Qed.

(** ** The dictionary of worksheets *)

(** X10.  Once the service has listed the worksheets, [get_worksheet_dict]
    returns a dictionary whose keys are the titles, each once; a key maps
    to the id of a worksheet of that title, the last one listed when
    several worksheets share the title. *)
Theorem get_worksheet_dict_maps_titles_to_ids {R client workbook response cell}
    (api : Gspread R client workbook response cell) (self : GSPREAD client workbook)
    (r r1 : R) (wss : list Worksheet) (t1 : trace) :
  gspread_function (call "sh.worksheets" (sh_worksheets api (sh self))) r
    = (Ok wss, r1, t1) ->
  exists d,
    get_worksheet_dict api self r = (Ok d, r1, t1)
    /\ NoDup (PyDict.keys d)
    /\ (forall k, In k (PyDict.keys d) <-> exists ws, In ws wss /\ ws_title ws = k)
    /\ (forall k i, PyDict.get d k = Some i ->
                    exists ws, In ws wss /\ ws_title ws = k /\ ws_id ws = i)
    /\ (forall pre ws post,
          wss = pre ++ ws :: post ->
          (forall w, In w post -> ws_title w <> ws_title ws) ->
          PyDict.get d (ws_title ws) = Some (ws_id ws)).
Proof.
  intros Hws. exists (PyDict.comprehension ws_title ws_id wss). conjuncts.
  - unfold get_worksheet_dict, bind, ret. rewrite Hws. now rewrite app_nil_r.
  - apply keys_fold_nodup. constructor.
  - intros k. apply keys_comprehension.
  - intros k i Hget. apply get_some_in, in_comprehension in Hget as [ws [Hin [= -> ->]]].
    eauto.
  - intros pre ws post -> Hpost. now apply comprehension_last_wins.
Qed.

Lemma get_worksheet_dict_maps_titles_to_ids_witness :
  gspread_function
    (call "sh.worksheets"
       (sh_worksheets (Double.service Double.opens Double.two_sheets) "global/Budget")) 0
    = (Ok Double.two_sheets, 1, [Enter; Invoke "sh.worksheets"; Leave])
  /\ exists d,
       get_worksheet_dict (Double.service Double.opens Double.two_sheets)
         {| self_gc := "instance"; sh := "global/Budget" |} 0
       = (Ok d, 1, [Enter; Invoke "sh.worksheets"; Leave])
       /\ NoDup (PyDict.keys d).
Proof.
  split; [reflexivity|].
  destruct (get_worksheet_dict_maps_titles_to_ids
              (Double.service Double.opens Double.two_sheets)
              {| self_gc := "instance"; sh := "global/Budget" |}
              0 1 Double.two_sheets [Enter; Invoke "sh.worksheets"; Leave] eq_refl)
    as [d [Hrun [Hnd _]]].
  exists d. split; assumption.
Defined.

(** ** Reading a worksheet into a table *)

Section Frames.

Context {cell : Type}.
Implicit Types (row : list cell) (data : list (list cell)).

Lemma range_length (n : nat) : length (Pandas.range n) = n.
Proof. unfold Pandas.range. now rewrite length_map, length_seq. Qed.

(** No row is longer than the width, and a row is as long. *)
Lemma width_bound data row : In row data -> length row <= Pandas.width data.
Proof.
  intros Hin. unfold Pandas.width.
  pose proof (proj1 (list_max_le (map (@length cell) data) _) (le_n _)) as Hall.
  rewrite Forall_forall in Hall. apply Hall, in_map, Hin.
Qed.

Lemma width_reached data :
  data <> [] -> exists row, In row data /\ length row = Pandas.width data.
Proof.
  induction data as [|row data IH]; [contradiction|]. intros _.
  change (Pandas.width (row :: data)) with (Nat.max (length row) (Pandas.width data)).
  destruct (Nat.max_spec (length row) (Pandas.width data)) as [[Hlt ->]|[Hle ->]].
  - destruct data as [|row' data]; [cbn in Hlt; lia|].
    destruct IH as [longest [Hin Heq]]; [discriminate|].
    exists longest. split; [right; exact Hin|exact Heq].
  - exists row. split; [left; reflexivity|reflexivity].
Qed.

(** A row filled up has the width, its cells are in their places and the
    places after them are empty. *)
Lemma pad_length w row : length row <= w -> length (Pandas.pad w row) = w.
Proof.
  intros Hw. unfold Pandas.pad. rewrite length_app, length_map, repeat_length. lia.
Qed.

Lemma pad_nth w row j :
  length row <= w -> j < w -> nth_error (Pandas.pad w row) j = Some (nth_error row j).
Proof.
  intros Hw Hj. unfold Pandas.pad.
  destruct (Nat.lt_ge_cases j (length row)) as [Hin|Hout].
  - rewrite nth_error_app1 by (rewrite length_map; exact Hin).
    rewrite nth_error_map.
    destruct (nth_error row j) eqn:Hcell; [reflexivity|].
    apply nth_error_None in Hcell. lia.
  - rewrite nth_error_app2 by (rewrite length_map; exact Hout).
    rewrite length_map, nth_error_repeat by lia.
    now rewrite (proj2 (nth_error_None row j) Hout).
Qed.

Lemma pad_full w row : length row = w -> Pandas.pad w row = map Some row.
Proof.
  intros <-. unfold Pandas.pad. rewrite Nat.sub_diag. apply app_nil_r.
Qed.

(** A table whose rows are as long as its first has the width of it. *)
Lemma width_rectangular header rest :
  Forall (fun row => length row = length header) rest ->
  Pandas.width (header :: rest) = length header.
Proof.
  intros Hrect.
  destruct (width_reached (header :: rest)) as [row [Hin Heq]]; [discriminate|].
  rewrite <- Heq. destruct Hin as [<-|Hin]; [reflexivity|].
  rewrite Forall_forall in Hrect. exact (Hrect row Hin).
Qed.

End Frames.

(** X11.  Once the sheet reference is resolved and the service has returned
    the values of the sheet, [sheet_to_df] raises [IndexError] when there is
    no row at all.  Otherwise it returns a frame, and the assignment of the
    column labels is never refused.  The frame has as many columns as the
    longest row of the data, the first row included, has cells.  Its column
    labels are the first row and its rows are the other rows, in their
    order and labelled 0, 1, ...; each has one cell per column: the cells
    the data gives, in their places, and an empty cell in every place the
    data gives none.  When the other rows are as long as the first, labels
    and rows are those of the data, with no empty cell. *)
Theorem sheet_to_df_splits_header {R client workbook response cell}
    (api : Gspread R client workbook response cell) (self : GSPREAD client workbook)
    (sheet : sheet_ref) (ws : Worksheet) (r r1 r2 : R) (data : list (list cell))
    (t1 t2 : trace) :
  _sheet_check api self sheet r = (Ok ws, r1, t1) ->
  gspread_function (call "sheet.get_all_values" (worksheet_get_all_values api ws)) r1
    = (Ok data, r2, t2) ->
  match data with
  | [] =>
      sheet_to_df api self sheet r
      = (Raise (OtherError "IndexError" "single positional indexer is out-of-bounds"),
         r2, t1 ++ t2)
  | header :: rest =>
      exists df w,
        sheet_to_df api self sheet r = (Ok df, r2, t1 ++ t2)
        /\ (forall row, In row data -> length row <= w)
        /\ (exists row, In row data /\ length row = w)
        /\ length (Pandas.labels df) = w
        /\ (forall j, j < w -> nth_error (Pandas.labels df) j = Some (nth_error header j))
        /\ length (Pandas.rows df) = length rest
        /\ Pandas.index df = map Z.of_nat (seq 0 (length rest))
        /\ (forall i row,
              nth_error rest i = Some row ->
              exists filled,
                nth_error (Pandas.rows df) i = Some filled
                /\ length filled = w
                /\ forall j, j < w -> nth_error filled j = Some (nth_error row j))
        /\ (Forall (fun row => length row = length header) rest ->
            Pandas.labels df = map Some header
            /\ Pandas.rows df = map (map Some) rest)
  end.
Proof.
  intros Hcheck Hvalues. unfold sheet_to_df, bind. rewrite Hcheck, Hvalues. cbv zeta.
  destruct data as [|header rest].
  - unfold lift. cbn. now rewrite app_nil_r.
  - set (data := header :: rest). set (w := Pandas.width data).
    assert (Hheader : length header <= w) by (apply width_bound; left; reflexivity).
    assert (Hset : Pandas.set_columns (Pandas.of_rows data) (Pandas.pad w header)
                   = Ok {| Pandas.labels := Pandas.pad w header;
                           Pandas.index := Pandas.range (length data);
                           Pandas.rows := map (Pandas.pad w) data |}).
    { unfold Pandas.set_columns, Pandas.of_rows. cbn [Pandas.labels Pandas.index Pandas.rows].
      fold w. rewrite (pad_length w header Hheader), range_length, Nat.eqb_refl.
      reflexivity. }
    change (Pandas.iloc0 (Pandas.of_rows data)) with (Ok (Pandas.pad w header)).
    unfold lift at 1. cbv beta iota. rewrite Hset. unfold lift, ret. cbv beta iota.
    rewrite !app_nil_r.
    eexists. exists w. split; [reflexivity|].
    cbn [Pandas.reset_index Pandas.drop_first Pandas.labels Pandas.index Pandas.rows
         tl data map].
    conjuncts.
    + intros row Hin. now apply width_bound.
    + apply width_reached. discriminate.
    + now apply pad_length.
    + intros j Hj. now apply pad_nth.
    + now rewrite length_map.
    + now rewrite length_map.
    + intros i row Hrow.
      assert (Hrow_w : length row <= w)
        by (apply width_bound; right; exact (nth_error_In _ _ Hrow)).
      exists (Pandas.pad w row). conjuncts.
      * now rewrite nth_error_map, Hrow.
      * now apply pad_length.
      * intros j Hj. now apply pad_nth.
    + intros Hrect.
      assert (Hw : w = length header) by (apply width_rectangular, Hrect).
      split; [apply pad_full; now rewrite Hw|].
      apply map_ext_in. intros row Hin. apply pad_full.
      rewrite Forall_forall in Hrect. rewrite Hw. exact (Hrect row Hin).
Qed.

(** A table whose last row lacks a cell, read through a sheet given by
    name: the label of the second column is "qty" and the second row has an
    empty cell there. *)
Lemma sheet_to_df_splits_header_witness :
  _sheet_check (Double.holding Double.ragged)
    {| self_gc := "instance"; sh := "global/Budget" |} (SheetName "Sheet1") 0
    = (Ok (Double.sheet "sheet1" 11), 2,
       [Enter; Invoke "sh.worksheets"; Leave;
        Enter; Invoke "sh.get_worksheet_by_id"; Leave])
  /\ gspread_function
       (call "sheet.get_all_values"
          (worksheet_get_all_values (Double.holding Double.ragged)
             (Double.sheet "sheet1" 11))) 2
     = (Ok Double.ragged, 3, [Enter; Invoke "sheet.get_all_values"; Leave])
  /\ exists df,
       sheet_to_df (Double.holding Double.ragged)
         {| self_gc := "instance"; sh := "global/Budget" |} (SheetName "Sheet1") 0
       = (Ok df, 3,
          [Enter; Invoke "sh.worksheets"; Leave;
           Enter; Invoke "sh.get_worksheet_by_id"; Leave;
           Enter; Invoke "sheet.get_all_values"; Leave])
       /\ length (Pandas.labels df) = 2
       /\ nth_error (Pandas.labels df) 1 = Some (Some "qty")
       /\ Pandas.index df = [0%Z; 1%Z]
       /\ exists filled,
            nth_error (Pandas.rows df) 1 = Some filled
            /\ nth_error filled 0 = Some (Some "nut")
            /\ nth_error filled 1 = Some None.
Proof.
  split; [reflexivity|]. split; [reflexivity|].
  destruct (sheet_to_df_splits_header (Double.holding Double.ragged)
              {| self_gc := "instance"; sh := "global/Budget" |} (SheetName "Sheet1")
              (Double.sheet "sheet1" 11) 0 2 3 Double.ragged
              [Enter; Invoke "sh.worksheets"; Leave;
               Enter; Invoke "sh.get_worksheet_by_id"; Leave]
              [Enter; Invoke "sheet.get_all_values"; Leave] eq_refl eq_refl)
    as [df [w [Hrun [Hbound [[longest [Hin Hlongest]] [Hlen [Hlabels [_ [Hindex [Hrows _]]]]]]]]]].
  assert (Hw : w = 2).
  { pose proof (Hbound ["name"; "qty"] (or_introl eq_refl)) as Hge.
    destruct Hin as [<-|[<-|[<-|[]]]]; cbn in Hge, Hlongest; lia. }
  rewrite Hw in Hlen, Hlabels, Hrows. exists df. conjuncts.
  - exact Hrun.
  - exact Hlen.
  - exact (Hlabels 1 (le_n 2)).
  - exact Hindex.
  - destruct (Hrows 1 ["nut"] eq_refl) as [filled [Hrow [_ Hcells]]].
    exists filled. conjuncts.
    + exact Hrow.
    + exact (Hcells 0 (le_S 1 1 (le_n 1))).
    + exact (Hcells 1 (le_n 2)).
Defined.

(** The same run, computed. *)
Example sheet_to_df_ragged :
  sheet_to_df (Double.holding Double.ragged)
    {| self_gc := "instance"; sh := "global/Budget" |} (SheetName "Sheet1") 0
  = (Ok {| Pandas.labels := [Some "name"; Some "qty"];
           Pandas.index := [0%Z; 1%Z];
           Pandas.rows := [[Some "bolt"; Some "4"]; [Some "nut"; None]] |}, 3,
     [Enter; Invoke "sh.worksheets"; Leave;
      Enter; Invoke "sh.get_worksheet_by_id"; Leave;
      Enter; Invoke "sheet.get_all_values"; Leave]).
Proof. reflexivity. Qed.

(** ** Replacing the contents of a worksheet *)

Section Replacing.

Context {R client workbook response cell : Type}.
Variable api : Gspread R client workbook response cell.
Variable self : GSPREAD client workbook.

(** X12.  A dataframe without rows is written as its header alone:
    whatever the service does, [worksheet.format] is not invoked. *)
Theorem replace_worksheet_with_df_formats_rows_only (worksheet_name : string)
    (df : DataFrame cell) (extra_rows : Z) (r : R) :
  values df = [] ->
  invocations "worksheet.format"
    (snd (replace_worksheet_with_df api self worksheet_name df extra_rows r)) = 0.
Proof.
  intros Hempty. apply invocations_wrapped. revert r.
  change (avoids "worksheet.format"
            (replace_worksheet_with_df api self worksheet_name df extra_rows)).
  unfold replace_worksheet_with_df.
  apply avoids_bind; [apply avoids_get_sheet_by_name; discriminate|intros ws].
  apply avoids_bind; [auto with avoids|intros _].
  apply avoids_bind; [auto with avoids|intros _].
  apply avoids_bind_result; [auto with avoids|].
  intros data_rows w w1 t Hrun.
  pose proof (conversion_run (values df) w) as Hconv. unfold conversion in Hconv.
  rewrite Hconv in Hrun. injection Hrun as <- _ _.
  rewrite Hempty. simpl.
  repeat (apply avoids_bind; [|intros ?]); auto with avoids.
Qed.

(** The parameter [extra_rows] has no effect. *)
Theorem replace_worksheet_with_df_ignores_extra_rows (worksheet_name : string)
    (df : DataFrame cell) (extra_rows extra_rows' : Z) (r : R) :
  replace_worksheet_with_df api self worksheet_name df extra_rows r
    = replace_worksheet_with_df api self worksheet_name df extra_rows' r.
Proof. reflexivity. Qed.

(** An operation that answers at once is invoked once. *)
Lemma gspread_function_answer {T} name (op : remote R T) (r r1 : R) (v : T) :
  op r = (Ok v, r1) ->
  gspread_function (call name op) r = (Ok v, r1, [Enter; Invoke name; Leave]).
Proof.
  intros Hop. unfold gspread_function. rewrite retry_loop_eq.
  change (0 <? counter_threshold) with true. cbv beta iota.
  unfold attempt, call. rewrite Hop. reflexivity.
Qed.

End Replacing.

Lemma replace_worksheet_with_df_formats_rows_only_witness :
  values {| columns := ["name"; "qty"]; values := @nil (list string) |} = []
  /\ invocations "worksheet.format"
       (snd (replace_worksheet_with_df (Double.service Double.opens Double.two_sheets)
               {| self_gc := "instance"; sh := "global/Budget" |} "Sheet1"
               {| columns := ["name"; "qty"]; values := [] |} 0 0)) = 0.
Proof.
  split; [reflexivity|].
  exact (replace_worksheet_with_df_formats_rows_only
           (Double.service Double.opens Double.two_sheets)
           {| self_gc := "instance"; sh := "global/Budget" |} "Sheet1"
           {| columns := ["name"; "qty"]; values := [] |} 0 0 eq_refl).
Defined.

(** The result and world of a sequence whose first part returns. *)
Lemma fst_bind_ok {R T U} (m : M R T) (k : T -> M R U) (r r1 : R) (v : T) (t : trace) :
  m r = (Ok v, r1, t) -> fst (bind m k r) = fst (k v r1).
Proof.
  intros Hm. unfold bind. rewrite Hm. destruct (k v r1) as [[y r2] t2]. reflexivity.
Qed.

Lemma bind_run_ok {R T U} (m : M R T) (k : T -> M R U) (r r1 r2 : R) (v : T)
    (y : result U) (t t2 : trace) :
  m r = (Ok v, r1, t) -> k v r1 = (y, r2, t2) -> bind m k r = (y, r2, t ++ t2).
Proof. intros Hm Hk. unfold bind. rewrite Hm, Hk. reflexivity. Qed.

(** The lookup by name on the recording service. *)
Lemma recorder_get_sheet_by_name (self : GSPREAD string string) (ws : Worksheet)
    (sheet_name : string) (log : Recorder.log) :
  matches sheet_name ws ->
  get_sheet_by_name (Recorder.service ws) self sheet_name log
  = (Ok ws,
     log ++ [Recorder.Worksheets (sh self); Recorder.WorksheetById (sh self) (ws_id ws)],
     [Enter; Invoke "sh.worksheets"; Leave; Enter; Invoke "sh.get_worksheet_by_id"; Leave]).
Proof.
  unfold matches. intros Hmatch.
  rewrite (get_sheet_by_name_run (Recorder.service ws) self sheet_name log
             (log ++ [Recorder.Worksheets (sh self)]) [ws]
             [Enter; Invoke "sh.worksheets"; Leave]).
  - unfold lowered_names, PyDict.items, PyDict.comprehension, PyDict.mem. simpl.
    rewrite Hmatch, String.eqb_refl. simpl.
    unfold get_sheet_by_id.
    erewrite gspread_function_answer by reflexivity.
    rewrite <- app_assoc. reflexivity.
  - apply gspread_function_answer. reflexivity.
Qed.

(** X13.  On a service that answers every call at once and whose workbook
    has one worksheet, named as asked up to case,
    [replace_worksheet_with_df] returns that worksheet after these
    requests, in this order: the worksheets are listed and the worksheet
    fetched by id; its basic filter is cleared and its panes unfrozen; it is
    cleared; the header followed by the rows is written to the range from
    A1 to the last column's letter and the row count; then, if there are
    rows, the range from A2 is formatted; and the first row is frozen. *)
Theorem replace_worksheet_with_df_requests (self : GSPREAD string string)
    (ws : Worksheet) (worksheet_name : string) (df : DataFrame string)
    (extra_rows : Z) (log : Recorder.log) :
  matches worksheet_name ws ->
  fst (replace_worksheet_with_df (Recorder.service ws) self worksheet_name df
         extra_rows log)
  = (Ok ws, log ++ Recorder.replacing (sh self) ws df).
Proof.
  intros Hmatch. unfold replace_worksheet_with_df.
  rewrite (fst_bind_ok _ _ _ _ _ _
             (recorder_get_sheet_by_name self ws worksheet_name log Hmatch)).
  do 5 (erewrite fst_bind_ok by (apply gspread_function_answer; reflexivity)).
  unfold Recorder.replacing, update_range, format_range, row_count.
  destruct (values df) as [|row rows]; cbn [length app Nat.ltb Nat.leb].
  - erewrite fst_bind_ok by reflexivity.
    erewrite fst_bind_ok by (apply gspread_function_answer; reflexivity).
    unfold ret. cbn [fst]. rewrite <- !app_assoc. reflexivity.
  - erewrite fst_bind_ok
      by (eapply bind_run_ok; [apply gspread_function_answer; reflexivity|reflexivity]).
    erewrite fst_bind_ok by (apply gspread_function_answer; reflexivity).
    unfold ret. cbn [fst]. rewrite <- !app_assoc. reflexivity.
Qed.

Lemma replace_worksheet_with_df_requests_witness :
  matches "SHEET1" (Double.sheet "sheet1" 11)
  /\ fst (replace_worksheet_with_df (Recorder.service (Double.sheet "sheet1" 11))
            {| self_gc := "instance"; sh := "global/Budget" |} "SHEET1" Double.table 0 [])
     = (Ok (Double.sheet "sheet1" 11),
        [Recorder.Worksheets "global/Budget"; Recorder.WorksheetById "global/Budget" 11;
         Recorder.ClearBasicFilter (Double.sheet "sheet1" 11);
         Recorder.Freeze (Double.sheet "sheet1" 11) (Some 0%Z) (Some 0%Z);
         Recorder.Clear (Double.sheet "sheet1" 11);
         Recorder.Update (Double.sheet "sheet1" 11) "A1:B3"
           [["name"; "qty"]; ["bolt"; "4"]; ["nut"; "9"]];
         Recorder.Format (Double.sheet "sheet1" 11) "A2:B3" data_row_format;
         Recorder.Freeze (Double.sheet "sheet1" 11) (Some 1%Z) None]).
Proof.
  assert (H : matches "SHEET1" (Double.sheet "sheet1" 11)) by reflexivity.
  split; [exact H|].
  exact (replace_worksheet_with_df_requests
           {| self_gc := "instance"; sh := "global/Budget" |}
           (Double.sheet "sheet1" 11) "SHEET1" Double.table 0 [] H).
Defined.

(** A dataframe without columns: the range has no column letter. *)
Example update_range_without_columns :
  update_range {| columns := @nil string; values := [] |} = "A1:1".
Proof. reflexivity. Qed.
